(** * The Python client of the Unified MCP Server

    A shallow embedding of [unified_mcp_client.py] (class [UnifiedMCPClient])
    and the properties of its request layer, its synchronous bridge over the
    real-time channel, its domain facade and its event subscription.

    Python values are embedded as the inductive type [PyVal]; the attributes
    of the client object are the record [Client]; everything outside the
    client (clock, HTTP server, socket.io server, user handlers) is the
    record [Env] of oracles plus the [World] of observable effects.  Methods
    that raise return [Raises e]. *)

From Stdlib Require Import ZArith Lia List Ascii String.
From stdpp Require Import gmap strings list pretty.

Set Warnings "-register-all".

Local Open Scope string_scope.
Local Open Scope list_scope.
Local Open Scope Z_scope.

(* ===================================================================== *)
(** * Python values *)
(* ===================================================================== *)

(** The values that travel through the client: what [json.loads] produces
    (without floats), which is also what handlers and callers exchange.
    A [dict] keeps its insertion order, so it is an association list. *)
Inductive PyVal : Type :=
| PyNone
| PyBool (b : bool)
| PyInt (z : Z)
| PyStr (s : string)
| PyList (l : list PyVal)
| PyDict (d : list (string * PyVal)).

(** Python truthiness, as tested by [if x:], [x or y] and [not x]. *)
Definition truthy (v : PyVal) : bool :=
  match v with
  | PyNone => false
  | PyBool b => b
  | PyInt z => negb (z =? 0)
  | PyStr s => match s with EmptyString => false | String _ _ => true end
  | PyList l => match l with [] => false | _ => true end
  | PyDict d => match d with [] => false | _ => true end
  end.

(** [x or y] *)
Definition py_or (x y : PyVal) : PyVal := if truthy x then x else y.

(** Lookup of a key in the association list of a dict. *)
Fixpoint dict_lookup (d : list (string * PyVal)) (key : string) : option PyVal :=
  match d with
  | [] => None
  | (k, v) :: d' => if String.eqb k key then Some v else dict_lookup d' key
  end.

(** [d.get(key, default)] *)
Definition dict_get (d : list (string * PyVal)) (key : string) (default : PyVal) : PyVal :=
  match dict_lookup d key with
  | Some v => v
  | None => default
  end.

(** ** [json.dumps] with its default settings

    Separators are [", "] and [": "]; [ensure_ascii] escapes the quote, the
    backslash and every character outside the printable ASCII range.  The
    characters of a string are code points below 256. *)

Definition hex_digit (n : N) : string :=
  match n with
  | 0%N => "0" | 1%N => "1" | 2%N => "2" | 3%N => "3"
  | 4%N => "4" | 5%N => "5" | 6%N => "6" | 7%N => "7"
  | 8%N => "8" | 9%N => "9" | 10%N => "a" | 11%N => "b"
  | 12%N => "c" | 13%N => "d" | 14%N => "e" | _ => "f"
  end.

(** The two characters that a string literal cannot spell directly. *)
Definition quote_char : ascii := "034"%char.
Definition backslash_char : ascii := "092"%char.

(** A backslash followed by [s]. *)
Definition escaped (s : string) : string := String backslash_char s.

Definition escape_char (c : ascii) : string :=
  let n := Ascii.N_of_ascii c in
  if (n =? 34)%N then escaped (String quote_char EmptyString)
  else if (n =? 92)%N then escaped (String backslash_char EmptyString)
  else if (n =? 8)%N then escaped "b"
  else if (n =? 9)%N then escaped "t"
  else if (n =? 10)%N then escaped "n"
  else if (n =? 12)%N then escaped "f"
  else if (n =? 13)%N then escaped "r"
  else if ((32 <=? n) && (n <=? 126))%N then String c EmptyString
  else escaped "u00" +:+ hex_digit (n / 16) +:+ hex_digit (n mod 16).

Fixpoint escape_string (s : string) : string :=
  match s with
  | EmptyString => EmptyString
  | String c s' => escape_char c +:+ escape_string s'
  end.

Definition encode_basestring_ascii (s : string) : string :=
  String quote_char (escape_string s +:+ String quote_char EmptyString).

Fixpoint json_dumps (v : PyVal) : string :=
  match v with
  | PyNone => "null"
  | PyBool true => "true"
  | PyBool false => "false"
  | PyInt z => pretty z
  | PyStr s => encode_basestring_ascii s
  | PyList l =>
      "[" +:+
      (fix items (l : list PyVal) : string :=
         match l with
         | [] => EmptyString
         | x :: l' =>
             match l' with
             | [] => json_dumps x
             | _ :: _ => json_dumps x +:+ ", " +:+ items l'
             end
         end) l +:+ "]"
  | PyDict d =>
      "{" +:+
      (fix items (d : list (string * PyVal)) : string :=
         match d with
         | [] => EmptyString
         | (k, x) :: d' =>
             match d' with
             | [] => encode_basestring_ascii k +:+ ": " +:+ json_dumps x
             | _ :: _ => encode_basestring_ascii k +:+ ": " +:+ json_dumps x +:+ ", " +:+ items d'
             end
         end) d +:+ "}"
  end.

(* ===================================================================== *)
(** * The objects the client handles *)
(* ===================================================================== *)

(** A [requests.Response]: its status, its body as text and what its
    [json()] method yields ([None] when the body is not a JSON document and
    [json()] raises; the empty body is such a body). *)
Record Response : Type := mkResponse {
  status_code : Z;
  text : string;
  json : option PyVal
}.

(** The exceptions that cross the client.  Only instances of [Exception]
    are modelled, so [except Exception] and a bare [except] catch all of
    them.  [RequestException] stands for the whole hierarchy of
    [requests.exceptions]: [cls] is the concrete class and [response] its
    [response] attribute. *)
Inductive Exc : Type :=
| Exception (arg : PyVal)
| RequestException (cls : string) (response : option Response)
| KeyError (key : string)
| TypeError (msg : string)
| OtherError (cls : string) (arg : PyVal).

(** The arguments of one call of [requests.request]. *)
Record HttpRequest : Type := mkHttpRequest {
  req_method : string;
  req_url : string;
  req_headers : list (string * string);
  req_json : PyVal;
  req_params : PyVal;
  req_timeout : Z
}.

(** What [requests.request] does: it raises or it hands back a response. *)
Inductive HttpResult : Type :=
| HttpRaises (e : Exc)
| HttpResponds (r : Response).

(** Handlers are Python callables.  [oid] is the identity of the object
    ([id(h)], compared by [is]).  A plain function or lambda is equal ([==])
    only to itself.  A bound method [obj.meth] is a fresh object at each
    attribute access, and two of them are equal when they bind the same
    object to the same function. *)
Inductive Callable : Type :=
| Function (oid : nat)
| BoundMethod (oid : nat) (im_self im_func : nat).

Definition oid_of (h : Callable) : nat :=
  match h with
  | Function oid => oid
  | BoundMethod oid _ _ => oid
  end.

(** [a is b] *)
Definition py_is (a b : Callable) : bool := (oid_of a =? oid_of b)%nat.

(** The comparison of [x in l] and [l.remove(x)]: identity, or else [==]. *)
Definition py_eq (a b : Callable) : bool :=
  py_is a b ||
  match a, b with
  | BoundMethod _ s f, BoundMethod _ s' f' => (s =? s')%nat && (f =? f')%nat
  | _, _ => false
  end.

(** The [socketio.Client] held in [self.sio]. *)
Inductive SocketIOClient : Type :=
| socketio_Client.

(** The attributes of a [UnifiedMCPClient]. *)
Record Client : Type := mkClient {
  base_url : string;
  api_key : option string;
  timeout : Z;
  use_websocket : bool;
  websocket_url : string;
  headers : list (string * string);
  sio : option SocketIOClient;
  event_handlers : gmap string (list Callable)
}.

Definition set_sio (s : option SocketIOClient) (c : Client) : Client :=
  mkClient (base_url c) (api_key c) (timeout c) (use_websocket c)
           (websocket_url c) (headers c) s (event_handlers c).

Definition set_event_handlers (m : gmap string (list Callable)) (c : Client) : Client :=
  mkClient (base_url c) (api_key c) (timeout c) (use_websocket c)
           (websocket_url c) (headers c) (sio c) m.

(** [if self.sio:] a client object is always truthy, [None] never. *)
Definition sio_active (c : Client) : bool :=
  match sio c with
  | Some _ => true
  | None => false
  end.

(* ===================================================================== *)
(** * The world around the client *)
(* ===================================================================== *)

(** What the client does to the outside, in the order it does it.
    [Print prefix e] is [print(f"{prefix}{e}")]. *)
Inductive Effect : Type :=
| HttpCall (req : HttpRequest)
| SioConnect (url : string) (auth : PyVal)
| SioEmit (event : string) (data : PyVal)
| SioDisconnect
| Sleep (ms : Z)
| Print (prefix : string) (e : Exc)
| Invoke (handler : Callable) (args : list PyVal).

(** [clock] is [time.time()] in milliseconds. *)
Record World : Type := mkWorld {
  clock : Z;
  trace : list Effect
}.

(** The oracles.
    - [requests_request tr req]: the outcome of the HTTP call [req] after
      the effects [tr];
    - [sio_connect url auth]: [Some e] when [sio.connect] raises [e];
    - [sio_reply tr event data]: whether the server acknowledges this
      emission, after how many milliseconds, and with which value (the
      argument the transport passes to the correlation callback);
    - [call_handler h args c]: what running the user handler [h] does to
      the client object it can reach (through [on] and [off]) and whether
      it raises.  What a handler does to the outside by itself (HTTP calls,
      emissions, waiting) is not modelled. *)
Record Env : Type := mkEnv {
  requests_request : list Effect -> HttpRequest -> HttpResult;
  sio_connect : string -> PyVal -> option Exc;
  sio_reply : list Effect -> string -> PyVal -> option (N * PyVal);
  call_handler : Callable -> list PyVal -> Client -> Client * option Exc
}.

Record State : Type := mkState {
  client : Client;
  world : World
}.

(** ** Computations: state passing with exceptions

    [Diverges] is the outcome of a loop that did not finish within the fuel
    it was given. *)
Inductive Res (A : Type) : Type :=
| Returns (a : A)
| Raises (e : Exc)
| Diverges.
Arguments Returns {A} a.
Arguments Raises {A} e.
Arguments Diverges {A}.

Definition M (A : Type) : Type := State -> Res A * State.

#[global] Instance M_ret : MRet M :=
  fun A (a : A) st => (Returns a, st).

#[global] Instance M_bind : MBind M :=
  fun A B (f : A -> M B) (m : M A) st =>
    match m st with
    | (Returns a, st') => f a st'
    | (Raises e, st') => (Raises e, st')
    | (Diverges, st') => (Diverges, st')
    end.

(** [raise e] *)
Definition raise {A : Type} (e : Exc) : M A :=
  fun st => (Raises e, st).

(** [try: body / except ... as e: handler e]; the handler decides what it
    catches by re-raising the rest. *)
Definition try_except {A : Type} (body : M A) (handler : Exc -> M A) : M A :=
  fun st =>
    match body st with
    | (Raises e, st') => handler e st'
    | r => r
    end.

Definition get_self : M Client :=
  fun st => (Returns (client st), st).

Definition modify_self (f : Client -> Client) : M unit :=
  fun st => (Returns tt, mkState (f (client st)) (world st)).

Definition get_trace : M (list Effect) :=
  fun st => (Returns (trace (world st)), st).

Definition perform (e : Effect) : M unit :=
  fun st => (Returns tt,
             mkState (client st) (mkWorld (clock (world st)) (trace (world st) ++ [e]))).

(** [time.time()] *)
Definition time_time : M Z :=
  fun st => (Returns (clock (world st)), st).

(** [time.sleep(ms / 1000)]: exactly [ms] milliseconds pass. *)
Definition time_sleep (ms : Z) : M unit :=
  fun st => (Returns tt,
             mkState (client st) (mkWorld (clock (world st) + ms) (trace (world st) ++ [Sleep ms]))).

(** [response[key]] *)
Definition subscript (v : PyVal) (key : string) : M PyVal :=
  match v with
  | PyDict d =>
      match dict_lookup d key with
      | Some x => mret x
      | None => raise (KeyError key)
      end
  | PyNone => raise (TypeError "'NoneType' object is not subscriptable")
  | _ => raise (TypeError "indices must be integers")
  end.

(* ===================================================================== *)
(** * The client *)
(* ===================================================================== *)

(** ** Event subscription *)

(** [x in l] *)
Definition list_contains (x : Callable) (l : list Callable) : bool :=
  existsb (fun y => py_eq y x) l.

(** [l.remove(x)]: the first item equal to [x] goes.  Python raises
    [ValueError] when there is none; [off] calls it only after [x in l]. *)
Fixpoint list_remove (x : Callable) (l : list Callable) : list Callable :=
  match l with
  | [] => []
  | y :: l' => if py_eq y x then l' else y :: list_remove x l'
  end.

Definition on (self : Client) (event : string) (handler : Callable) : Client :=
  let self :=
    match event_handlers self !! event with
    | None => set_event_handlers (<[event := []]> (event_handlers self)) self
    | Some _ => self
    end in
  match event_handlers self !! event with
  | Some l => set_event_handlers (<[event := l ++ [handler]]> (event_handlers self)) self
  | None => self
  end.

Definition off (self : Client) (event : string) (handler : Callable) : Client :=
  match event_handlers self !! event with
  | None => self
  | Some l =>
      if list_contains handler l
      then set_event_handlers (<[event := list_remove handler l]> (event_handlers self)) self
      else self
  end.

Section Methods.

Context (env : Env).

(** [handler( *args )] inside [try] / [except Exception as e: print(...)]. *)
Definition guarded_call (event : string) (handler : Callable) (args : list PyVal) : M unit :=
  try_except
    (perform (Invoke handler args) ;;
     self ← get_self ;
     let (self', failure) := call_handler env handler args self in
     modify_self (fun _ => self') ;;
     match failure with
     | Some e => raise e
     | None => mret tt
     end)
    (fun e => perform (Print ("Error in event handler for " +:+ event +:+ ": ") e)).

(** [for handler in self.event_handlers[event]: ...].  The loop walks the
    list object of the registry itself, by position: what a handler does to
    that list through [on] and [off] is seen by the rest of the loop. *)
Fixpoint for_handler_in (fuel : nat) (event : string) (args : list PyVal) (i : nat) : M unit :=
  fun st =>
    match event_handlers (client st) !! event ≫= (fun l : list Callable => l !! i) with
    | None => (Returns tt, st)
    | Some handler =>
        match fuel with
        | O => (Diverges, st)
        | S fuel' =>
            (guarded_call event handler args ;;
             for_handler_in fuel' event args (S i)) st
        end
    end.

Definition _trigger_event (fuel : nat) (event : string) (args : list PyVal) : M unit :=
  self ← get_self ;
  match event_handlers self !! event with
  | None => mret tt
  | Some _ => for_handler_in fuel event args 0
  end.

(** The reactions installed by [_setup_websocket] on the three push events.
    The reactions to [connect] and [disconnect], which only print, are not
    part of it. *)
Definition sio_receive (fuel : nat) (event : string) (data : PyVal) : M unit :=
  if String.eqb event "task_updated" then _trigger_event fuel "task_updated" [data]
  else if String.eqb event "task_deleted" then _trigger_event fuel "task_deleted" [data]
  else if String.eqb event "agent_updated" then _trigger_event fuel "agent_updated" [data]
  else mret tt.

(** ** Construction *)

Definition _setup_websocket : M unit :=
  modify_self (set_sio (Some socketio_Client)) ;;
  self ← get_self ;
  let auth := PyDict [("token", match api_key self with Some k => PyStr k | None => PyNone end)] in
  try_except
    (perform (SioConnect (websocket_url self) auth) ;;
     match sio_connect env (websocket_url self) auth with
     | Some e => raise e
     | None => mret tt
     end)
    (fun e =>
       perform (Print "WebSocket connection error: " e) ;;
       modify_self (set_sio None)).

(** [x or y] and [if x:] on an optional string. *)
Definition str_truthy (s : option string) : bool :=
  match s with
  | Some (String _ _) => true
  | _ => false
  end.

Definition __init__ (base_url : string) (api_key : option string) (timeout : Z)
    (websocket : bool) (websocket_url : option string) : M unit :=
  let headers := [("Content-Type", "application/json")] in
  let headers :=
    if str_truthy api_key
    then headers ++ [("Authorization", "Bearer " +:+ default EmptyString api_key)]
    else headers in
  modify_self (fun _ =>
    mkClient base_url api_key timeout websocket
             (if str_truthy websocket_url then default EmptyString websocket_url else base_url)
             headers None ∅) ;;
  (if websocket then _setup_websocket else mret tt) ;;
  modify_self (set_event_handlers ∅).

(** ** The request layer *)

(** [response.raise_for_status()]: [HTTPError] for 4xx and 5xx. *)
Definition raise_for_status (response : Response) : M unit :=
  if (400 <=? status_code response) && (status_code response <? 600)
  then raise (RequestException "HTTPError" (Some response))
  else mret tt.

(** [response.json()].  Its [JSONDecodeError] carries no response. *)
Definition Response_json (response : Response) : M PyVal :=
  match json response with
  | Some v => mret v
  | None => raise (RequestException "JSONDecodeError" None)
  end.

(** [requests.request(...)] *)
Definition requests_request_ (req : HttpRequest) : M Response :=
  tr ← get_trace ;
  perform (HttpCall req) ;;
  match requests_request env tr req with
  | HttpRaises e => raise e
  | HttpResponds r => mret r
  end.

Definition _request (method path : string) (data params : PyVal) : M PyVal :=
  self ← get_self ;
  let url := base_url self +:+ path in
  try_except
    (response ← requests_request_
       (mkHttpRequest method url (headers self) data params (timeout self)) ;
     raise_for_status response ;;
     Response_json response)
    (fun e =>
       match e with
       | RequestException _ (Some response) =>
           let error_message := "API error: " +:+ pretty (status_code response) in
           error_message ←
             try_except
               (error_data ← Response_json response ;
                mret (error_message +:+ " - " +:+ json_dumps error_data))
               (fun _ => mret (error_message +:+ " - " +:+ text response)) ;
           raise (Exception (PyStr error_message))
       | _ => raise e
       end).

(** ** The synchronous bridge *)

(** The variables of [_socket_request] that its [callback] assigns. *)
Record Nonlocals : Type := mkNonlocals {
  response_received : bool;
  response_data : PyVal;
  response_error : PyVal
}.

Definition no_response : Nonlocals := mkNonlocals false PyNone PyNone.

(** The correlation callback.  It sets [response_received] first; on a
    value without a [get] method the next line raises inside the transport
    and the other two variables stay [None]. *)
Definition callback (response : PyVal) : Nonlocals :=
  match response with
  | PyDict d =>
      if truthy (dict_get d "success" PyNone)
      then mkNonlocals true response PyNone
      else mkNonlocals true PyNone (dict_get d "error" (PyStr "Unknown error"))
  | _ => mkNonlocals true PyNone PyNone
  end.

(** What the caller's thread reads from those variables at the instant
    [now]: the callback has run when the reply arrived before [now]. *)
Definition nonlocals_at (pending : option (Z * PyVal)) (now : Z) : Nonlocals :=
  match pending with
  | Some (arrival, response) => if arrival <? now then callback response else no_response
  | None => no_response
  end.

(** [self.sio.emit(event, data, callback=callback)]: returns at once; the
    result is the reply on its way, with the instant of its arrival. *)
Definition sio_emit (event : string) (data : PyVal) : M (option (Z * PyVal)) :=
  tr ← get_trace ;
  now ← time_time ;
  perform (SioEmit event data) ;;
  mret (match sio_reply env tr event data with
        | Some (delay, response) => Some (now + Z.of_N delay, response)
        | None => None
        end).

(** [while not response_received and time.time() < timeout_time:
       time.sleep(0.1)] *)
Fixpoint wait_for_response (fuel : nat) (pending : option (Z * PyVal)) (timeout_time : Z) : M unit :=
  match fuel with
  | O => mret tt
  | S fuel' =>
      now ← time_time ;
      if negb (response_received (nonlocals_at pending now)) && (now <? timeout_time)
      then time_sleep 100 ;; wait_for_response fuel' pending timeout_time
      else mret tt
  end.

(** The number of polls that a timeout of [timeout] seconds allows. *)
Definition polls (timeout : Z) : nat := S (Z.to_nat (10 * timeout)).

Definition _socket_request (event : string) (data : PyVal) : M PyVal :=
  self ← get_self ;
  if negb (sio_active self)
  then raise (Exception (PyStr "WebSocket is not enabled or connected"))
  else
    pending ← sio_emit event (py_or data (PyDict [])) ;
    now ← time_time ;
    let timeout_time := now + 1000 * timeout self in
    wait_for_response (polls (timeout self)) pending timeout_time ;;
    now ← time_time ;
    let vars := nonlocals_at pending now in
    if negb (response_received vars)
    then raise (Exception (PyStr ("WebSocket request timeout for event: " +:+ event)))
    else if truthy (response_error vars)
    then raise (Exception (response_error vars))
    else mret (response_data vars).

(** ** The domain facade *)

Definition health : M PyVal :=
  _request "GET" "/health" PyNone PyNone.

Definition create_agent (config : PyVal) : M PyVal :=
  self ← get_self ;
  if sio_active self
  then response ← _socket_request "agent:create" config ;
       subscript response "agent"
  else _request "POST" "/api/v1/agents" config PyNone.

Definition get_agent (agent_id : string) : M PyVal :=
  self ← get_self ;
  if sio_active self
  then response ← _socket_request "agent:get" (PyDict [("agentId", PyStr agent_id)]) ;
       subscript response "agent"
  else _request "GET" ("/api/v1/agents/" +:+ agent_id) PyNone PyNone.

Definition list_agents (filter : PyVal) : M PyVal :=
  self ← get_self ;
  if sio_active self
  then response ← _socket_request "agent:list" (PyDict [("filter", filter)]) ;
       subscript response "agents"
  else
    let params :=
      if truthy filter then PyDict [("filter", PyStr (json_dumps filter))] else PyDict [] in
    _request "GET" "/api/v1/agents" PyNone params.

Definition update_agent (agent_id : string) (config : PyVal) : M PyVal :=
  self ← get_self ;
  if sio_active self
  then response ← _socket_request "agent:update"
                    (PyDict [("agentId", PyStr agent_id); ("config", config)]) ;
       subscript response "agent"
  else _request "PUT" ("/api/v1/agents/" +:+ agent_id) config PyNone.

Definition delete_agent (agent_id : string) : M PyVal :=
  self ← get_self ;
  if sio_active self
  then response ← _socket_request "agent:delete" (PyDict [("agentId", PyStr agent_id)]) ;
       subscript response "success"
  else _request "DELETE" ("/api/v1/agents/" +:+ agent_id) PyNone PyNone ;;
       mret (PyBool true).

Definition run_agent (agent_id : string) (task : string) : M PyVal :=
  self ← get_self ;
  if sio_active self
  then response ← _socket_request "agent:run"
                    (PyDict [("agentId", PyStr agent_id); ("task", PyStr task)]) ;
       subscript response "result"
  else _request "POST" ("/api/v1/agents/" +:+ agent_id +:+ "/run")
                (PyDict [("task", PyStr task)]) PyNone.

Definition create_task (title description : string) (dependencies : PyVal) : M PyVal :=
  let data := PyDict [("title", PyStr title);
                      ("description", PyStr description);
                      ("dependencies", py_or dependencies (PyList []))] in
  self ← get_self ;
  if sio_active self
  then response ← _socket_request "task:create" data ;
       subscript response "task"
  else _request "POST" "/api/v1/tasks" data PyNone.

Definition get_task (task_id : string) : M PyVal :=
  self ← get_self ;
  if sio_active self
  then response ← _socket_request "task:get" (PyDict [("taskId", PyStr task_id)]) ;
       subscript response "task"
  else _request "GET" ("/api/v1/tasks/" +:+ task_id) PyNone PyNone.

Definition list_tasks (filter : PyVal) : M PyVal :=
  self ← get_self ;
  if sio_active self
  then response ← _socket_request "task:list" (PyDict [("filter", filter)]) ;
       subscript response "tasks"
  else
    let params :=
      if truthy filter then PyDict [("filter", PyStr (json_dumps filter))] else PyDict [] in
    _request "GET" "/api/v1/tasks" PyNone params.

Definition update_task (task_id : string) (updates : PyVal) : M PyVal :=
  self ← get_self ;
  if sio_active self
  then response ← _socket_request "task:update"
                    (PyDict [("taskId", PyStr task_id); ("updates", updates)]) ;
       subscript response "task"
  else _request "PUT" ("/api/v1/tasks/" +:+ task_id) updates PyNone.

Definition delete_task (task_id : string) : M PyVal :=
  self ← get_self ;
  if sio_active self
  then response ← _socket_request "task:delete" (PyDict [("taskId", PyStr task_id)]) ;
       subscript response "success"
  else _request "DELETE" ("/api/v1/tasks/" +:+ task_id) PyNone PyNone ;;
       mret (PyBool true).

Definition add_dependency (task_id depends_on_task_id : string) : M PyVal :=
  self ← get_self ;
  if sio_active self
  then response ← _socket_request "task:addDependency"
                    (PyDict [("taskId", PyStr task_id);
                             ("dependsOnTaskId", PyStr depends_on_task_id)]) ;
       subscript response "task"
  else _request "POST" ("/api/v1/tasks/" +:+ task_id +:+ "/dependencies")
                (PyDict [("dependsOnTaskId", PyStr depends_on_task_id)]) PyNone.

Definition remove_dependency (task_id depends_on_task_id : string) : M PyVal :=
  self ← get_self ;
  if sio_active self
  then response ← _socket_request "task:removeDependency"
                    (PyDict [("taskId", PyStr task_id);
                             ("dependsOnTaskId", PyStr depends_on_task_id)]) ;
       subscript response "task"
  else _request "DELETE"
                ("/api/v1/tasks/" +:+ task_id +:+ "/dependencies/" +:+ depends_on_task_id)
                PyNone PyNone.

Definition get_next_task : M PyVal :=
  self ← get_self ;
  if sio_active self
  then response ← _socket_request "task:getNext" (PyDict []) ;
       subscript response "task"
  else _request "GET" "/api/v1/tasks/next" PyNone PyNone.

Definition list_tools : M PyVal :=
  self ← get_self ;
  if sio_active self
  then response ← _socket_request "tool:list" (PyDict []) ;
       subscript response "tools"
  else _request "GET" "/api/v1/tools" PyNone PyNone.

Definition execute_tool (name : string) (parameters : PyVal) : M PyVal :=
  self ← get_self ;
  if sio_active self
  then response ← _socket_request "tool:execute"
                    (PyDict [("name", PyStr name);
                             ("parameters", py_or parameters (PyDict []))]) ;
       subscript response "result"
  else _request "POST" ("/api/v1/tools/" +:+ name +:+ "/execute")
                (PyDict [("parameters", py_or parameters (PyDict []))]) PyNone.

Definition close : M unit :=
  self ← get_self ;
  if sio_active self
  then perform SioDisconnect ;;
       modify_self (set_sio None)
  else mret tt.

End Methods.

(* ===================================================================== *)
(** * The facade as a whole *)
(* ===================================================================== *)

(** One constructor per domain method, with its arguments. *)
Inductive Call : Type :=
| Health
| CreateAgent (config : PyVal)
| GetAgent (agent_id : string)
| ListAgents (filter : PyVal)
| UpdateAgent (agent_id : string) (config : PyVal)
| DeleteAgent (agent_id : string)
| RunAgent (agent_id : string) (task : string)
| CreateTask (title description : string) (dependencies : PyVal)
| GetTask (task_id : string)
| ListTasks (filter : PyVal)
| UpdateTask (task_id : string) (updates : PyVal)
| DeleteTask (task_id : string)
| AddDependency (task_id depends_on_task_id : string)
| RemoveDependency (task_id depends_on_task_id : string)
| GetNextTask
| ListTools
| ExecuteTool (name : string) (parameters : PyVal).

Definition invoke (env : Env) (c : Call) : M PyVal :=
  match c with
  | Health => health env
  | CreateAgent config => create_agent env config
  | GetAgent agent_id => get_agent env agent_id
  | ListAgents filter => list_agents env filter
  | UpdateAgent agent_id config => update_agent env agent_id config
  | DeleteAgent agent_id => delete_agent env agent_id
  | RunAgent agent_id task => run_agent env agent_id task
  | CreateTask title description dependencies => create_task env title description dependencies
  | GetTask task_id => get_task env task_id
  | ListTasks filter => list_tasks env filter
  | UpdateTask task_id updates => update_task env task_id updates
  | DeleteTask task_id => delete_task env task_id
  | AddDependency task_id depends_on_task_id => add_dependency env task_id depends_on_task_id
  | RemoveDependency task_id depends_on_task_id => remove_dependency env task_id depends_on_task_id
  | GetNextTask => get_next_task env
  | ListTools => list_tools env
  | ExecuteTool name parameters => execute_tool env name parameters
  end.

(** ** The pattern of the specification

    The one shape the specification gives to a domain method: on an active
    real-time connection, one exchange through the synchronous bridge and
    the named field of the reply; otherwise one call of the request layer,
    whose result is returned as it is. *)
Definition uniform_pattern (env : Env) (event : string) (payload : PyVal) (field : string)
    (verb path : string) (body query : PyVal) : M PyVal :=
  self ← get_self ;
  if sio_active self
  then response ← _socket_request env event payload ;
       subscript response field
  else _request env verb path body query.

(** The table of the HTTP surface, as the specification prints it. *)
Definition spec_route (c : Call) : string * string :=
  match c with
  | Health => ("GET", "/health")
  | CreateAgent _ => ("POST", "/api/v1/agents")
  | ListAgents _ => ("GET", "/api/v1/agents")
  | GetAgent id => ("GET", "/api/v1/agents/" +:+ id)
  | UpdateAgent id _ => ("PUT", "/api/v1/agents/" +:+ id)
  | DeleteAgent id => ("DELETE", "/api/v1/agents/" +:+ id)
  | RunAgent id _ => ("POST", "/api/v1/agents/" +:+ id +:+ "/run")
  | CreateTask _ _ _ => ("POST", "/api/v1/tasks")
  | ListTasks _ => ("GET", "/api/v1/tasks")
  | GetTask id => ("GET", "/api/v1/tasks/" +:+ id)
  | UpdateTask id _ => ("PUT", "/api/v1/tasks/" +:+ id)
  | DeleteTask id => ("DELETE", "/api/v1/tasks/" +:+ id)
  | GetNextTask => ("GET", "/api/v1/tasks/next")
  | AddDependency id _ => ("POST", "/api/v1/tasks/" +:+ id +:+ "/dependencies")
  | RemoveDependency id dep => ("DELETE", "/api/v1/tasks/" +:+ id +:+ "/dependencies/" +:+ dep)
  | ListTools => ("GET", "/api/v1/tools")
  | ExecuteTool name _ => ("POST", "/api/v1/tools/" +:+ name +:+ "/execute")
  end.

(** A domain method follows the pattern when some event, payload, field,
    body and query make it equal to [uniform_pattern] on the verb and path
    of the table, in every environment and state. *)
Definition follows_uniform_pattern (c : Call) : Prop :=
  exists event payload field body query,
    forall env st,
      invoke env c st =
      uniform_pattern env event payload field (fst (spec_route c)) (snd (spec_route c))
                      body query st.

(** The event, payload and reply field of each method on the real-time
    path; [health] has none. *)
Definition socket_route (c : Call) : option (string * PyVal * string) :=
  match c with
  | Health => None
  | CreateAgent config => Some ("agent:create", config, "agent")
  | GetAgent id => Some ("agent:get", PyDict [("agentId", PyStr id)], "agent")
  | ListAgents filter => Some ("agent:list", PyDict [("filter", filter)], "agents")
  | UpdateAgent id config =>
      Some ("agent:update", PyDict [("agentId", PyStr id); ("config", config)], "agent")
  | DeleteAgent id => Some ("agent:delete", PyDict [("agentId", PyStr id)], "success")
  | RunAgent id task =>
      Some ("agent:run", PyDict [("agentId", PyStr id); ("task", PyStr task)], "result")
  | CreateTask title description dependencies =>
      Some ("task:create",
            PyDict [("title", PyStr title); ("description", PyStr description);
                    ("dependencies", py_or dependencies (PyList []))],
            "task")
  | GetTask id => Some ("task:get", PyDict [("taskId", PyStr id)], "task")
  | ListTasks filter => Some ("task:list", PyDict [("filter", filter)], "tasks")
  | UpdateTask id updates =>
      Some ("task:update", PyDict [("taskId", PyStr id); ("updates", updates)], "task")
  | DeleteTask id => Some ("task:delete", PyDict [("taskId", PyStr id)], "success")
  | AddDependency id dep =>
      Some ("task:addDependency",
            PyDict [("taskId", PyStr id); ("dependsOnTaskId", PyStr dep)], "task")
  | RemoveDependency id dep =>
      Some ("task:removeDependency",
            PyDict [("taskId", PyStr id); ("dependsOnTaskId", PyStr dep)], "task")
  | GetNextTask => Some ("task:getNext", PyDict [], "task")
  | ListTools => Some ("tool:list", PyDict [], "tools")
  | ExecuteTool name parameters =>
      Some ("tool:execute",
            PyDict [("name", PyStr name); ("parameters", py_or parameters (PyDict []))],
            "result")
  end.

(** The JSON body and the query parameters of each method on the HTTP path. *)
Definition http_body (c : Call) : PyVal :=
  match c with
  | CreateAgent config => config
  | UpdateAgent _ config => config
  | RunAgent _ task => PyDict [("task", PyStr task)]
  | CreateTask title description dependencies =>
      PyDict [("title", PyStr title); ("description", PyStr description);
              ("dependencies", py_or dependencies (PyList []))]
  | UpdateTask _ updates => updates
  | AddDependency _ dep => PyDict [("dependsOnTaskId", PyStr dep)]
  | ExecuteTool _ parameters => PyDict [("parameters", py_or parameters (PyDict []))]
  | _ => PyNone
  end.

Definition filter_params (filter : PyVal) : PyVal :=
  if truthy filter then PyDict [("filter", PyStr (json_dumps filter))] else PyDict [].

Definition http_query (c : Call) : PyVal :=
  match c with
  | ListAgents filter => filter_params filter
  | ListTasks filter => filter_params filter
  | _ => PyNone
  end.

Definition is_delete (c : Call) : bool :=
  match c with
  | DeleteAgent _ | DeleteTask _ => true
  | _ => false
  end.

(** The HTTP path of a method: one call of the request layer on the route
    of the table; the two deletions drop its result and return [True]. *)
Definition http_path (env : Env) (c : Call) : M PyVal :=
  result ← _request env (fst (spec_route c)) (snd (spec_route c)) (http_body c) (http_query c) ;
  if is_delete c then mret (PyBool true) else mret result.

(** What the code does: [health] always goes through the request layer;
    every other method branches on the connection. *)
Definition facade_pattern (env : Env) (c : Call) : M PyVal :=
  match socket_route c with
  | None => http_path env c
  | Some (event, payload, field) =>
      self ← get_self ;
      if sio_active self
      then response ← _socket_request env event payload ;
           subscript response field
      else http_path env c
  end.

(** ** Sequences of calls on one client *)

(** The public operations of a client. *)
Inductive Op : Type :=
| OpCall (c : Call)
| OpOn (event : string) (handler : Callable)
| OpOff (event : string) (handler : Callable)
| OpClose.

Definition run_op (env : Env) (o : Op) (st : State) : State :=
  match o with
  | OpCall c => snd (invoke env c st)
  | OpOn event handler => mkState (on (client st) event handler) (world st)
  | OpOff event handler => mkState (off (client st) event handler) (world st)
  | OpClose => snd (close st)
  end.

(** The caller goes on after an exception, so only the state is threaded. *)
Definition run_ops (env : Env) (ops : list Op) (st : State) : State :=
  fold_left (fun st o => run_op env o st) ops st.

(** ** Reading a trace *)

Definition emissions (tr : list Effect) : list (string * PyVal) :=
  omap (fun e => match e with SioEmit event data => Some (event, data) | _ => None end) tr.

Definition invocations (tr : list Effect) : list (Callable * list PyVal) :=
  omap (fun e => match e with Invoke h args => Some (h, args) | _ => None end) tr.

(** [s] occurs inside [t]. *)
Definition contains (t s : string) : Prop :=
  exists before after, t = before +:+ s +:+ after.

(** ** Auxiliary definitions for the statements *)

(** The handler list of an event; an event that was never registered has
    none. *)
Definition handlers_for (c : Client) (event : string) : list Callable :=
  default [] (event_handlers c !! event).

(** The number of registrations that [off] would match for [h]. *)
Definition registrations (h : Callable) (l : list Callable) : nat :=
  length (filter (fun y => py_eq y h = true) l).

(** The state after [k] rounds of the polling loop. *)
Definition after_polls (k : nat) (st : State) : State :=
  mkState (client st)
          (mkWorld (clock (world st) + 100 * Z.of_nat k)
                   (trace (world st) ++ repeat (Sleep 100) k)).

(** The condition of the polling loop at the instant [now]. *)
Definition keeps_waiting (pending : option (Z * PyVal)) (timeout_time now : Z) : bool :=
  negb (response_received (nonlocals_at pending now)) && (now <? timeout_time).

(** The state right after an emission. *)
Definition after_emit (event : string) (data : PyVal) (st : State) : State :=
  mkState (client st)
          (mkWorld (clock (world st)) (trace (world st) ++ [SioEmit event data])).

(** The reply that an emission made in state [st] will receive, with the
    instant of its arrival. *)
Definition reply_to (env : Env) (event : string) (data : PyVal) (st : State) : option (Z * PyVal) :=
  match sio_reply env (trace (world st)) event data with
  | Some (delay, response) => Some (clock (world st) + Z.of_N delay, response)
  | None => None
  end.

(** The end of [_socket_request], once a reply was received. *)
Definition bridge_outcome (vars : Nonlocals) : Res PyVal :=
  if truthy (response_error vars)
  then Raises (Exception (response_error vars))
  else Returns (response_data vars).

(** The message of the error that [_request] raises for a response. *)
Definition api_error (r : Response) : string :=
  "API error: " +:+ pretty (status_code r) +:+ " - " +:+
  match json r with
  | Some error_data => json_dumps error_data
  | None => text r
  end.

(** The call of [requests.request] that [_request] makes in state [st]. *)
Definition request_of (st : State) (method path : string) (data params : PyVal) : HttpRequest :=
  mkHttpRequest method (base_url (client st) +:+ path) (headers (client st))
                data params (timeout (client st)).

(** The state right after an HTTP call. *)
Definition after_http (req : HttpRequest) (st : State) : State :=
  mkState (client st)
          (mkWorld (clock (world st)) (trace (world st) ++ [HttpCall req])).

(** What [_request] makes of the outcome of its HTTP call. *)
Definition request_result (outcome : HttpResult) : Res PyVal :=
  match outcome with
  | HttpRaises (RequestException _ (Some r)) => Raises (Exception (PyStr (api_error r)))
  | HttpRaises e => Raises e
  | HttpResponds r =>
      if (400 <=? status_code r) && (status_code r <? 600)
      then Raises (Exception (PyStr (api_error r)))
      else match json r with
           | Some v => Returns v
           | None => Raises (RequestException "JSONDecodeError" None)
           end
  end.

(** The effects of a dispatch that walks the handlers [hs] one after the
    other from the client [c], and the client it leaves. *)
Fixpoint dispatch_effects (env : Env) (event : string) (args : list PyVal)
    (hs : list Callable) (c : Client) : list Effect * Client :=
  match hs with
  | [] => ([], c)
  | h :: hs' =>
      let (c', failure) := call_handler env h args c in
      let (effects, c'') := dispatch_effects env event args hs' c' in
      (Invoke h args ::
       match failure with
       | Some e => Print ("Error in event handler for " +:+ event +:+ ": ") e :: effects
       | None => effects
       end, c'')
  end.

(** No handler touches the handler list of [event]. *)
Definition registry_stable (env : Env) (event : string) : Prop :=
  forall h args c,
    event_handlers (fst (call_handler env h args c)) !! event = event_handlers c !! event.

(* ===================================================================== *)
(** * Concrete scenarios *)
(* ===================================================================== *)

Module Scenario.

(** Handlers that neither raise nor touch the client. *)
Definition idle_handlers : Callable -> list PyVal -> Client -> Client * option Exc :=
  fun _ _ c => (c, None).

(** A server that answers every HTTP call with [r] and never acknowledges
    an emission. *)
Definition http_server (r : Response) : Env :=
  mkEnv (fun _ _ => HttpResponds r) (fun _ _ => None) (fun _ _ _ => None) idle_handlers.

(** A server that acknowledges every emission with [reply] after [delay]
    milliseconds. *)
Definition socket_server (delay : N) (reply : PyVal) : Env :=
  mkEnv (fun _ _ => HttpResponds (mkResponse 200 "{}" (Some (PyDict []))))
        (fun _ _ => None) (fun _ _ _ => Some (delay, reply)) idle_handlers.

(** A network on which every HTTP call fails before any response. *)
Definition unreachable : Env :=
  mkEnv (fun _ _ => HttpRaises (RequestException "ConnectionError" None))
        (fun _ _ => None) (fun _ _ _ => None) idle_handlers.

Definition ok_response : Response := mkResponse 200 "{}" (Some (PyDict [])).

(** [204 No Content]: a success without a body. *)
Definition no_content : Response := mkResponse 204 EmptyString None.

Definition error_body : PyVal := PyDict [("code", PyStr "X")].

(** [404] with the body [{"code":"X"}]. *)
Definition not_found : Response :=
  mkResponse 404 (json_dumps error_body) (Some error_body).

(** [502] with a body that is not JSON. *)
Definition bad_gateway : Response := mkResponse 502 "Bad Gateway" None.

(** [300 Multiple Choices] with a JSON body: neither 2xx nor an error for
    [raise_for_status]. *)
Definition multiple_choices : Response :=
  mkResponse 300 (json_dumps error_body) (Some error_body).

Definition start : State :=
  mkState (mkClient EmptyString None 0 false EmptyString [] None ∅) (mkWorld 0 []).

(** [UnifiedMCPClient("http://host", api_key="k", timeout=2)] *)
Definition realtime_client : State :=
  snd (__init__ (http_server ok_response) "http://host" (Some "k") 2 true None start).

(** [UnifiedMCPClient("http://host", api_key="k", timeout=2, websocket=False)] *)
Definition http_client : State :=
  snd (__init__ (http_server ok_response) "http://host" (Some "k") 2 false None start).

(** A reply that reports a failure with an empty message. *)
Definition failure_without_message : PyVal :=
  PyDict [("success", PyBool false); ("error", PyStr EmptyString)].

(** A reply that reports a failure with the message [X]. *)
Definition failure_X : PyVal :=
  PyDict [("success", PyBool false); ("error", PyStr "X")].

(** A reply that reports a success and carries no other field. *)
Definition bare_success : PyVal := PyDict [("success", PyBool true)].

(** Two bound methods [o.m], obtained by two attribute accesses. *)
Definition method_1 : Callable := BoundMethod 1 7 3.
Definition method_2 : Callable := BoundMethod 2 7 3.

Definition first : Callable := Function 10.
Definition second : Callable := Function 11.

(** [first] unregisters itself when it runs; the other handlers do nothing. *)
Definition once_handlers : Callable -> list PyVal -> Client -> Client * option Exc :=
  fun h _ c =>
    match h with
    | Function 10 => (off c "task_updated" first, None)
    | _ => (c, None)
    end.

Definition once_env : Env :=
  mkEnv (fun _ _ => HttpResponds ok_response) (fun _ _ => None) (fun _ _ _ => None)
        once_handlers.

(** Every handler raises. *)
Definition raising_env : Env :=
  mkEnv (fun _ _ => HttpResponds ok_response) (fun _ _ => None) (fun _ _ _ => None)
        (fun _ _ c => (c, Some (OtherError "ValueError" (PyStr "boom")))).

(** The client with [first] and [second] registered, in this order. *)
Definition two_handlers : State :=
  mkState (on (on (client http_client) "task_updated" first) "task_updated" second)
          (world http_client).

End Scenario.

(* ===================================================================== *)
(** * Auxiliary definitions for the further properties *)
(* ===================================================================== *)

(** The headers that a constructor call with the key [api_key] installs. *)
Definition credentials (api_key : option string) : list (string * string) :=
  match api_key with
  | Some (String a k) =>
      [("Content-Type", "application/json"); ("Authorization", "Bearer " +:+ String a k)]
  | _ => [("Content-Type", "application/json")]
  end.

(** The URL that a constructor call connects to. *)
Definition connect_url (base_url : string) (websocket_url : option string) : string :=
  match websocket_url with
  | Some (String a u) => String a u
  | _ => base_url
  end.

(** The [auth] argument of that connection. *)
Definition connect_auth (api_key : option string) : PyVal :=
  PyDict [("token", match api_key with Some k => PyStr k | None => PyNone end)].

(** The effects of a constructor call. *)
Definition construction_effects (env : Env) (base_url : string) (api_key : option string)
    (websocket : bool) (websocket_url : option string) : list Effect :=
  if websocket
  then SioConnect (connect_url base_url websocket_url) (connect_auth api_key) ::
       match sio_connect env (connect_url base_url websocket_url) (connect_auth api_key) with
       | Some e => [Print "WebSocket connection error: " e]
       | None => []
       end
  else [].

(** The three pushes that have a reaction. *)
Definition is_push_event (event : string) : bool :=
  String.eqb event "task_updated" || String.eqb event "task_deleted" ||
  String.eqb event "agent_updated".

Module Cases.

(** A server that refuses the real-time connection and answers every HTTP
    call with [r]. *)
Definition refusing (r : Response) : Env :=
  mkEnv (fun _ _ => HttpResponds r)
        (fun _ _ => Some (OtherError "ConnectionError" (PyStr "refused")))
        (fun _ _ _ => None) Scenario.idle_handlers.

(** A server whose HTTP calls fail with an exception that carries the
    response [r]. *)
Definition failing_with (r : Response) : Env :=
  mkEnv (fun _ _ => HttpRaises (RequestException "TooManyRedirects" (Some r)))
        (fun _ _ => None) (fun _ _ _ => None) Scenario.idle_handlers.

(** A success whose body is not JSON. *)
Definition html_page : Response := mkResponse 200 "<html></html>" None.

(** A redirection that was not followed. *)
Definition redirect : Response := mkResponse 302 "moved" None.

(** A successful reply with an agent and a task list. *)
Definition full_reply : PyVal :=
  PyDict [("success", PyBool true); ("agent", PyDict [("id", PyStr "a1")]);
          ("tasks", PyList [])].

Definition third : Callable := Function 12.

End Cases.

(* ===================================================================== *)
(** * Properties *)
(* ===================================================================== *)

(** ** Computations *)

Ltac unfold_M :=
  unfold mbind, M_bind, mret, M_ret, raise, try_except, get_self, modify_self,
    get_trace, perform, time_time, time_sleep in *.

Lemma bind_ret_r {A : Type} (m : M A) (st : State) :
  (a ← m ; mret a) st = m st.
Proof.
  unfold_M. destruct (m st) as [[a | e |] st']; reflexivity.
Qed.

(** ** The polling loop *)

Section Polling.

Variable pending : option (Z * PyVal).
Variable timeout_time : Z.

Lemma after_polls_0 st : after_polls 0 st = st.
Proof.
  destruct st as [c [t tr]]. unfold after_polls. simpl.
  rewrite Z.add_0_r, app_nil_r. reflexivity.
Qed.

Lemma after_polls_S k st :
  after_polls k (after_polls 1 st) = after_polls (S k) st.
Proof.
  unfold after_polls. simpl client. simpl world. simpl clock. simpl trace.
  f_equal. f_equal.
  - lia.
  - rewrite <- app_assoc. reflexivity.
Qed.

(** The loop sleeps [k] times, for the least [k] at which its condition
    fails, unless the fuel ends first. *)
Lemma wait_for_response_run fuel :
  forall st, exists k,
    (k <= fuel)%nat /\
    wait_for_response fuel pending timeout_time st = (Returns tt, after_polls k st) /\
    (forall j, (j < k)%nat -> keeps_waiting pending timeout_time (clock (world st) + 100 * Z.of_nat j) = true) /\
    (k = fuel \/ keeps_waiting pending timeout_time (clock (world st) + 100 * Z.of_nat k) = false).
Proof.
  induction fuel as [| fuel IH]; intros st.
  - exists 0%nat. rewrite after_polls_0. repeat split; auto. intros j Hj. lia.
  - simpl wait_for_response. unfold_M.
    fold (keeps_waiting pending timeout_time (clock (world st))).
    destruct (keeps_waiting pending timeout_time (clock (world st))) eqn:Hnow.
    + destruct (IH (after_polls 1 st)) as (k & Hk & Hrun & Hbefore & Hlast).
      exists (S k). split; [lia |]. split.
      * replace (mkState (client st) (mkWorld (clock (world st) + 100) (trace (world st) ++ [Sleep 100])))
          with (after_polls 1 st) by reflexivity.
        rewrite Hrun, after_polls_S. reflexivity.
      * simpl clock in Hbefore, Hlast. split.
        -- intros j Hj. destruct j as [| j].
           ++ rewrite Z.add_0_r. exact Hnow.
           ++ specialize (Hbefore j ltac:(lia)).
              rewrite <- Hbefore. f_equal. lia.
        -- destruct Hlast as [-> | Hlast]; [left; reflexivity | right].
           rewrite <- Hlast. f_equal. lia.
    + exists 0%nat. rewrite after_polls_0. split; [lia |]. split; [reflexivity |].
      split; [intros j Hj; lia | right]. rewrite Z.add_0_r. exact Hnow.
Qed.

End Polling.

(** The fuel that [_socket_request] gives to the loop is enough: the loop
    ends because its condition fails. *)
Lemma wait_for_response_exits pending T st :
  exists k,
    wait_for_response (polls T) pending (clock (world st) + 1000 * T) st
      = (Returns tt, after_polls k st) /\
    (forall j, (j < k)%nat ->
       keeps_waiting pending (clock (world st) + 1000 * T)
                     (clock (world st) + 100 * Z.of_nat j) = true) /\
    keeps_waiting pending (clock (world st) + 1000 * T)
                  (clock (world st) + 100 * Z.of_nat k) = false.
Proof.
  destruct (wait_for_response_run pending (clock (world st) + 1000 * T) (polls T) st)
    as (k & Hk & Hrun & Hbefore & Hlast).
  exists k. split; [exact Hrun |]. split; [exact Hbefore |].
  destruct Hlast as [-> | Hlast]; [| exact Hlast].
  exfalso.
  assert (Hlt : (Z.to_nat (10 * T) < polls T)%nat) by (unfold polls; lia).
  specialize (Hbefore _ Hlt). unfold keeps_waiting in Hbefore.
  apply andb_prop in Hbefore as [_ Hbefore].
  apply Z.ltb_lt in Hbefore. lia.
Qed.

(** Without a reply before the deadline, the loop ends exactly at the
    deadline and nothing was received. *)
Lemma wait_for_response_times_out pending T st :
  0 <= T ->
  (forall arrival response,
     pending = Some (arrival, response) -> clock (world st) + 1000 * T <= arrival) ->
  wait_for_response (polls T) pending (clock (world st) + 1000 * T) st
    = (Returns tt, after_polls (Z.to_nat (10 * T)) st) /\
  response_received
    (nonlocals_at pending (clock (world (after_polls (Z.to_nat (10 * T)) st)))) = false.
Proof.
  intros HT Hlate.
  assert (Hnever : forall now, now <= clock (world st) + 1000 * T ->
            response_received (nonlocals_at pending now) = false).
  { intros now Hnow. unfold nonlocals_at.
    destruct pending as [[arrival response] |]; [| reflexivity].
    specialize (Hlate arrival response eq_refl).
    destruct (arrival <? now) eqn:Hlt; [apply Z.ltb_lt in Hlt; lia | reflexivity]. }
  destruct (wait_for_response_exits pending T st) as (k & Hrun & Hbefore & Hlast).
  assert (Hk : k = Z.to_nat (10 * T)).
  { assert (Hle : clock (world st) + 100 * Z.of_nat k <= clock (world st) + 1000 * T).
    { destruct k as [| k]; [lia |].
      specialize (Hbefore k ltac:(lia)). unfold keeps_waiting in Hbefore.
      apply andb_prop in Hbefore as [_ Hbefore]. apply Z.ltb_lt in Hbefore. lia. }
    unfold keeps_waiting in Hlast. rewrite (Hnever _ Hle) in Hlast. simpl in Hlast.
    apply Z.ltb_ge in Hlast. lia. }
  subst k. split; [exact Hrun |].
  apply Hnever. unfold after_polls. simpl. lia.
Qed.

(** With a reply before the deadline, the loop ends with the reply
    received. *)
Lemma wait_for_response_receives T st arrival response :
  arrival < clock (world st) + 1000 * T ->
  exists k,
    wait_for_response (polls T) (Some (arrival, response)) (clock (world st) + 1000 * T) st
      = (Returns tt, after_polls k st) /\
    nonlocals_at (Some (arrival, response)) (clock (world (after_polls k st)))
      = callback response.
Proof.
  intros Hearly.
  destruct (wait_for_response_exits (Some (arrival, response)) T st)
    as (k & Hrun & _ & Hlast).
  exists k. split; [exact Hrun |].
  unfold keeps_waiting in Hlast. unfold after_polls. simpl clock.
  unfold nonlocals_at in *.
  destruct (arrival <? clock (world st) + 100 * Z.of_nat k) eqn:Hseen; [reflexivity |].
  simpl in Hlast. apply Z.ltb_ge in Hlast. apply Z.ltb_ge in Hseen. lia.
Qed.

(** ** The synchronous bridge *)

Section Bridge.

Context (env : Env).

(** Without a connection nothing happens but the exception. *)
Lemma socket_request_inactive event data st :
  sio_active (client st) = false ->
  _socket_request env event data st
    = (Raises (Exception (PyStr "WebSocket is not enabled or connected")), st).
Proof.
  intros Hoff. unfold _socket_request. unfold_M. rewrite Hoff. reflexivity.
Qed.

(** On a connection: one emission, then the polling loop, then the test of
    what the callback left. *)
Lemma socket_request_active event data st :
  sio_active (client st) = true ->
  let sent := py_or data (PyDict []) in
  let pending := reply_to env event sent st in
  let T := timeout (client st) in
  forall k,
    wait_for_response (polls T) pending (clock (world st) + 1000 * T) (after_emit event sent st)
      = (Returns tt, after_polls k (after_emit event sent st)) ->
    let st' := after_polls k (after_emit event sent st) in
    let vars := nonlocals_at pending (clock (world st')) in
    _socket_request env event data st =
      (if negb (response_received vars)
       then Raises (Exception (PyStr ("WebSocket request timeout for event: " +:+ event)))
       else bridge_outcome vars, st').
Proof.
  intros Hon sent pending T k Hwait st' vars.
  unfold _socket_request, sio_emit. unfold_M. rewrite Hon.
  cbn [negb]. cbv beta iota. cbn [client world clock trace]. fold sent.
  fold (reply_to env event sent st). fold pending. fold T.
  fold (after_emit event sent st). rewrite Hwait. fold st'. fold vars.
  unfold bridge_outcome.
  destruct (response_received vars); simpl; [| reflexivity].
  destruct (truthy (response_error vars)); reflexivity.
Qed.

(** No reply before the deadline: the timeout error, at the deadline. *)
Lemma socket_request_times_out event data st :
  sio_active (client st) = true ->
  0 <= timeout (client st) ->
  (forall delay response,
     sio_reply env (trace (world st)) event (py_or data (PyDict [])) = Some (delay, response) ->
     1000 * timeout (client st) <= Z.of_N delay) ->
  _socket_request env event data st =
    (Raises (Exception (PyStr ("WebSocket request timeout for event: " +:+ event))),
     after_polls (Z.to_nat (10 * timeout (client st)))
                 (after_emit event (py_or data (PyDict [])) st)).
Proof.
  intros Hon HT Hlate.
  set (sent := py_or data (PyDict [])) in *.
  destruct (wait_for_response_times_out (reply_to env event sent st)
              (timeout (client st)) (after_emit event sent st) HT) as [Hwait Hnone].
  { intros arrival response Hpending. unfold reply_to in Hpending. simpl.
    destruct (sio_reply env (trace (world st)) event sent) as [[delay r] |] eqn:Hreply;
      [| discriminate].
    injection Hpending as <- <-. specialize (Hlate delay r eq_refl). lia. }
  rewrite (socket_request_active event data st Hon _ Hwait).
  fold sent. rewrite Hnone. reflexivity.
Qed.

(** A reply before the deadline: what the callback made of it decides. *)
Lemma socket_request_receives event data st delay response :
  sio_active (client st) = true ->
  sio_reply env (trace (world st)) event (py_or data (PyDict [])) = Some (delay, response) ->
  Z.of_N delay < 1000 * timeout (client st) ->
  exists k,
    _socket_request env event data st =
      (bridge_outcome (callback response),
       after_polls k (after_emit event (py_or data (PyDict [])) st)).
Proof.
  intros Hon Hreply Hearly.
  set (sent := py_or data (PyDict [])) in *.
  assert (Hpending : reply_to env event sent st
                     = Some (clock (world st) + Z.of_N delay, response)).
  { unfold reply_to. rewrite Hreply. reflexivity. }
  destruct (wait_for_response_receives (timeout (client st)) (after_emit event sent st)
              (clock (world st) + Z.of_N delay) response) as (k & Hwait & Hvars).
  { simpl. lia. }
  exists k. rewrite <- Hpending in Hwait, Hvars.
  rewrite (socket_request_active event data st Hon _ Hwait).
  fold sent. rewrite Hvars.
  assert (Hrecv : response_received (callback response) = true).
  { unfold callback. destruct response; try reflexivity.
    destruct (truthy (dict_get d "success" PyNone)); reflexivity. }
  rewrite Hrecv. reflexivity.
Qed.

End Bridge.

(** ** The request layer *)

Lemma string_app_assoc (a b c : string) : (a +:+ b) +:+ c = a +:+ (b +:+ c).
Proof.
  induction a as [| x a IH]; [reflexivity |].
  change (String x ((a +:+ b) +:+ c) = String x (a +:+ (b +:+ c))). f_equal. exact IH.
Qed.

Lemma string_app_nil_r (a : string) : a +:+ EmptyString = a.
Proof.
  induction a as [| x a IH]; [reflexivity |].
  change (String x (a +:+ EmptyString) = String x a). f_equal. exact IH.
Qed.

Lemma contains_middle (a s b : string) : contains (a +:+ s +:+ b) s.
Proof. exists a, b. reflexivity. Qed.

Lemma contains_end (a s : string) : contains (a +:+ s) s.
Proof. exists a, EmptyString. rewrite string_app_nil_r. reflexivity. Qed.

Lemma api_error_contains_status r : contains (api_error r) (pretty (status_code r)).
Proof. unfold api_error. apply contains_middle. Qed.

Lemma api_error_contains_body r :
  contains (api_error r)
           (match json r with Some error_data => json_dumps error_data | None => text r end).
Proof.
  unfold api_error.
  rewrite <- (string_app_assoc (pretty (status_code r)) " - ").
  rewrite <- (string_app_assoc "API error: ").
  apply contains_end.
Qed.

Lemma bind_get_self {A : Type} (f : Client -> M A) (st : State) :
  (self ← get_self ; f self) st = f (client st) st.
Proof. reflexivity. Qed.

Section RequestLayer.

Context (env : Env).

(** One HTTP call, and a result that depends on its outcome alone. *)
Lemma request_run method path data params st :
  let req := request_of st method path data params in
  _request env method path data params st =
    (request_result (requests_request env (trace (world st)) req), after_http req st).
Proof.
  intros req. unfold _request, requests_request_, raise_for_status, Response_json.
  unfold_M. cbn [client world clock trace]. fold (request_of st method path data params).
  fold req. fold (after_http req st). unfold request_result, api_error.
  destruct (requests_request env (trace (world st)) req) as [e | r].
  - destruct e as [arg | cls [r |] | key | msg | cls arg]; try reflexivity.
    destruct (json r); reflexivity.
  - destruct ((400 <=? status_code r) && (status_code r <? 600)).
    + destruct (json r); reflexivity.
    + destruct (json r); reflexivity.
Qed.

(** A method on the HTTP path: the request of the table, once. *)
Lemma http_path_run c st :
  let req := request_of st (fst (spec_route c)) (snd (spec_route c)) (http_body c) (http_query c) in
  http_path env c st =
    (match request_result (requests_request env (trace (world st)) req) with
     | Returns v => Returns (if is_delete c then PyBool true else v)
     | r => r
     end, after_http req st).
Proof.
  intros req. unfold http_path. unfold mbind, M_bind. rewrite request_run. fold req.
  destruct (request_result (requests_request env (trace (world st)) req)); try reflexivity.
  destruct (is_delete c); reflexivity.
Qed.

(** Every domain method is the pattern of its routes. *)
Lemma invoke_facade_pattern c st : invoke env c st = facade_pattern env c st.
Proof.
  unfold facade_pattern.
  destruct c; cbn [socket_route invoke];
    unfold health, create_agent, get_agent, list_agents, update_agent, delete_agent,
      run_agent, create_task, get_task, list_tasks, update_task, delete_task,
      add_dependency, remove_dependency, get_next_task, list_tools, execute_tool,
      http_path, filter_params;
    cbv zeta; cbn [spec_route fst snd http_body http_query is_delete filter_params];
    rewrite ?bind_get_self; try destruct (sio_active (client st));
    rewrite ?bind_ret_r; reflexivity.
Qed.

(** Without a connection every domain method takes its HTTP path. *)
Lemma invoke_http c st :
  sio_active (client st) = false -> invoke env c st = http_path env c st.
Proof.
  intros Hoff. rewrite invoke_facade_pattern. unfold facade_pattern.
  destruct (socket_route c) as [[[event payload] field] |]; [| reflexivity].
  rewrite bind_get_self, Hoff. reflexivity.
Qed.

End RequestLayer.

(** ** Event subscription *)

Lemma py_eq_refl h : py_eq h h = true.
Proof.
  unfold py_eq, py_is. rewrite Nat.eqb_refl. reflexivity.
Qed.

(** [on] appends to the list of its event. *)
Lemma handlers_for_on c event h :
  handlers_for (on c event h) event = handlers_for c event ++ [h].
Proof.
  unfold handlers_for, on.
  destruct (event_handlers c !! event) as [l |] eqn:Hl;
    unfold set_event_handlers; cbn [event_handlers].
  - rewrite Hl. cbn [event_handlers]. rewrite lookup_insert_eq. reflexivity.
  - rewrite lookup_insert_eq. cbn [event_handlers].
    rewrite lookup_insert_eq. reflexivity.
Qed.

(** [on] leaves the other events alone. *)
Lemma handlers_for_on_other c event event' h :
  event <> event' -> handlers_for (on c event h) event' = handlers_for c event'.
Proof.
  intros Hne. unfold handlers_for, on.
  destruct (event_handlers c !! event) as [l |] eqn:Hl;
    unfold set_event_handlers; cbn [event_handlers].
  - rewrite Hl. cbn [event_handlers]. rewrite lookup_insert_ne by exact Hne. reflexivity.
  - rewrite lookup_insert_eq. cbn [event_handlers].
    rewrite !lookup_insert_ne by exact Hne. reflexivity.
Qed.

Lemma list_remove_absent h l : list_contains h l = false -> list_remove h l = l.
Proof.
  induction l as [| y l IH]; [reflexivity |].
  cbn [list_contains existsb list_remove]. intros Hno.
  apply orb_false_elim in Hno as [Hy Hl]. rewrite Hy.
  f_equal. apply IH. exact Hl.
Qed.

(** [off] removes from the list of its event what [list_remove] removes. *)
Lemma handlers_for_off c event h :
  handlers_for (off c event h) event = list_remove h (handlers_for c event).
Proof.
  unfold handlers_for, off.
  destruct (event_handlers c !! event) as [l |] eqn:Hl.
  - destruct (list_contains h l) eqn:Hin.
    + unfold set_event_handlers. cbn [event_handlers].
      rewrite lookup_insert_eq. reflexivity.
    + rewrite Hl. cbn [default]. symmetry. apply list_remove_absent. exact Hin.
  - rewrite Hl. reflexivity.
Qed.

(** What [list_remove] removes: the first item equal to [h], and only it. *)
Lemma list_remove_first h l :
  list_contains h l = true ->
  exists before x after,
    l = before ++ x :: after /\
    py_eq x h = true /\
    list_contains h before = false /\
    list_remove h l = before ++ after.
Proof.
  induction l as [| y l IH]; [discriminate |].
  cbn [list_contains existsb list_remove]. intros Hin.
  destruct (py_eq y h) eqn:Hy.
  - exists [], y, l. repeat split; [exact Hy].
  - cbn [orb] in Hin. destruct (IH Hin) as (before & x & after & -> & Hx & Hno & Hrm).
    exists (y :: before), x, after. repeat split.
    + exact Hx.
    + cbn [list_contains existsb]. rewrite Hy. exact Hno.
    + rewrite Hrm. reflexivity.
Qed.

Lemma registrations_app h l1 l2 :
  registrations h (l1 ++ l2) = (registrations h l1 + registrations h l2)%nat.
Proof.
  unfold registrations. rewrite filter_app, length_app. reflexivity.
Qed.

Lemma registrations_cons h y l :
  registrations h (y :: l) = ((if py_eq y h then 1 else 0) + registrations h l)%nat.
Proof.
  unfold registrations. rewrite filter_cons.
  destruct (py_eq y h) eqn:Hy.
  - destruct (decide (true = true)); [reflexivity | congruence].
  - destruct (decide (false = true)); [congruence | reflexivity].
Qed.

Lemma registrations_self h : registrations h [h] = 1%nat.
Proof.
  rewrite registrations_cons, py_eq_refl. reflexivity.
Qed.

(** One removal takes away one registration, when there is one. *)
Lemma registrations_remove h l :
  registrations h (list_remove h l) = Nat.pred (registrations h l).
Proof.
  induction l as [| y l IH]; [reflexivity |].
  cbn [list_remove]. rewrite registrations_cons.
  destruct (py_eq y h) eqn:Hy; [reflexivity |].
  rewrite registrations_cons, Hy. exact IH.
Qed.

(** ** Dispatch *)

Section Dispatch.

Context (env : Env).

(** One guarded call: the handler runs, what it raises is printed, and
    the call itself returns. *)
Lemma guarded_call_run event h args st :
  guarded_call env event h args st =
    (Returns tt,
     mkState (fst (call_handler env h args (client st)))
             (mkWorld (clock (world st))
                      (trace (world st) ++
                       Invoke h args ::
                       match snd (call_handler env h args (client st)) with
                       | Some e => [Print ("Error in event handler for " +:+ event +:+ ": ") e]
                       | None => []
                       end))).
Proof.
  unfold guarded_call. unfold_M. cbn [client world clock trace].
  destruct (call_handler env h args (client st)) as [c' [e |]]; cbn [fst snd].
  - cbn [client world clock trace]. rewrite <- app_assoc. reflexivity.
  - reflexivity.
Qed.

(** What a handler raises (an instance of [Exception], as all of [Exc])
    never leaves the loop. *)
Lemma for_handler_in_never_raises fuel :
  forall event args i st e,
    fst (for_handler_in env fuel event args i st) <> Raises e.
Proof.
  induction fuel as [| fuel IH]; intros event args i st e; cbn [for_handler_in].
  - destruct (event_handlers (client st) !! event ≫= _); cbn; discriminate.
  - destruct (event_handlers (client st) !! event ≫= _) as [h |]; [| cbn; discriminate].
    unfold mbind at 1. unfold M_bind at 1. rewrite guarded_call_run. apply IH.
Qed.

Lemma trigger_event_never_raises fuel event args st e :
  fst (_trigger_event env fuel event args st) <> Raises e.
Proof.
  unfold _trigger_event. rewrite bind_get_self.
  destruct (event_handlers (client st) !! event).
  - apply for_handler_in_never_raises.
  - cbn. discriminate.
Qed.

(** When no handler touches the list, the loop walks all of it. *)
Lemma for_handler_in_stable event args l :
  registry_stable env event ->
  forall fuel i st,
    event_handlers (client st) !! event = Some l ->
    (length l - i <= fuel)%nat ->
    for_handler_in env fuel event args i st =
      (Returns tt,
       mkState (snd (dispatch_effects env event args (drop i l) (client st)))
               (mkWorld (clock (world st))
                        (trace (world st) ++
                         fst (dispatch_effects env event args (drop i l) (client st))))).
Proof.
  intros Hstable fuel. induction fuel as [| fuel IH]; intros i st Hl Hfuel.
  - rewrite drop_ge by lia. cbn [for_handler_in dispatch_effects fst snd].
    rewrite Hl. cbn [mbind option_bind]. rewrite lookup_ge_None_2 by lia.
    rewrite app_nil_r. destruct st as [c [t tr]]. reflexivity.
  - cbn [for_handler_in]. rewrite Hl. cbn [mbind option_bind].
    destruct (l !! i) as [h |] eqn:Hi.
    + rewrite (drop_S _ _ _ Hi). cbn [dispatch_effects].
      unfold mbind at 1. unfold M_bind at 1. rewrite guarded_call_run.
      pose proof (Hstable h args (client st)) as Hkeep.
      destruct (call_handler env h args (client st)) as [c' failure] eqn:Hcall.
      cbn [fst snd] in *.
      rewrite IH; cbn [client world clock trace].
      * destruct (dispatch_effects env event args (drop (S i) l) c') as [effects c''].
        cbn [fst snd]. rewrite <- app_assoc.
        destruct failure; reflexivity.
      * rewrite Hkeep. exact Hl.
      * apply lookup_lt_Some in Hi. lia.
    + apply lookup_ge_None_1 in Hi. rewrite drop_ge by lia.
      cbn [dispatch_effects fst snd].
      rewrite app_nil_r. destruct st as [c [t tr]]. reflexivity.
Qed.

(** The same, from the entry of [_trigger_event]. *)
Lemma trigger_event_stable event args fuel st :
  registry_stable env event ->
  (length (handlers_for (client st) event) <= fuel)%nat ->
  let run := dispatch_effects env event args (handlers_for (client st) event) (client st) in
  _trigger_event env fuel event args st =
    (Returns tt,
     mkState (snd run) (mkWorld (clock (world st)) (trace (world st) ++ fst run))).
Proof.
  intros Hstable Hfuel run. unfold _trigger_event. rewrite bind_get_self.
  unfold run, handlers_for in *.
  destruct (event_handlers (client st) !! event) as [l |] eqn:Hl; cbn in Hfuel |- *.
  - rewrite (for_handler_in_stable event args l Hstable fuel 0 st Hl) by lia.
    rewrite drop_0. reflexivity.
  - cbn [dispatch_effects fst snd]. rewrite app_nil_r.
    destruct st as [c [t tr]]. reflexivity.
Qed.

(** The invocations among the effects of a dispatch: each handler once, in
    the order of the list. *)
Lemma invocations_dispatch_effects event args hs :
  forall c,
    invocations (fst (dispatch_effects env event args hs c)) = map (fun h => (h, args)) hs.
Proof.
  induction hs as [| h hs IH]; intros c; [reflexivity |].
  cbn [dispatch_effects].
  destruct (call_handler env h args c) as [c' failure].
  specialize (IH c').
  destruct (dispatch_effects env event args hs c') as [effects c''].
  cbn [fst] in *. cbn [map]. rewrite <- IH.
  destruct failure; reflexivity.
Qed.

Lemma invocations_app tr1 tr2 :
  invocations (tr1 ++ tr2) = invocations tr1 ++ invocations tr2.
Proof. unfold invocations. apply omap_app. Qed.

End Dispatch.

(** The server pushes reach the handlers through the three reactions that
    [_setup_websocket] installs, and only through them. *)
Lemma sio_receive_task_updated env fuel data st :
  sio_receive env fuel "task_updated" data st = _trigger_event env fuel "task_updated" [data] st.
Proof. reflexivity. Qed.

Lemma sio_receive_unknown_event env fuel data st :
  sio_receive env fuel "task_created" data st = (Returns tt, st).
Proof. reflexivity. Qed.

(** ** Traces *)

Lemma emissions_app tr1 tr2 : emissions (tr1 ++ tr2) = emissions tr1 ++ emissions tr2.
Proof. unfold emissions. apply omap_app. Qed.

Lemma emissions_sleeps k : emissions (repeat (Sleep 100) k) = [].
Proof. induction k as [| k IH]; [reflexivity | exact IH]. Qed.

Lemma emissions_after_polls k event data st :
  emissions (trace (world (after_polls k (after_emit event data st))))
  = emissions (trace (world st)) ++ [(event, data)].
Proof.
  unfold after_polls, after_emit. cbn [world trace].
  rewrite !emissions_app, emissions_sleeps, app_nil_r. reflexivity.
Qed.

Lemma emissions_after_http req st :
  emissions (trace (world (after_http req st))) = emissions (trace (world st)).
Proof.
  unfold after_http. cbn [world trace]. rewrite emissions_app. apply app_nil_r.
Qed.

(** ** Sequences of operations *)

Lemma sio_active_false c : sio_active c = false <-> sio c = None.
Proof.
  unfold sio_active. destruct (sio c); split; intros H; congruence.
Qed.

Lemma sio_on c event h : sio (on c event h) = sio c.
Proof.
  unfold on. destruct (event_handlers c !! event) as [l |] eqn:Hl;
    unfold set_event_handlers; cbn [event_handlers sio].
  - rewrite Hl. reflexivity.
  - rewrite lookup_insert_eq. reflexivity.
Qed.

Lemma sio_off c event h : sio (off c event h) = sio c.
Proof.
  unfold off. destruct (event_handlers c !! event) as [l |]; [| reflexivity].
  destruct (list_contains h l); reflexivity.
Qed.

(** [close] returns, and leaves no connection. *)
Lemma close_run st :
  fst (close st) = Returns tt /\ sio (client (snd (close st))) = None.
Proof.
  unfold close. rewrite bind_get_self. unfold sio_active.
  destruct (sio (client st)) eqn:Hsio; [| split; [reflexivity | exact Hsio]].
  split; reflexivity.
Qed.

(** [close] on a closed client does nothing. *)
Lemma close_closed st : sio (client st) = None -> close st = (Returns tt, st).
Proof.
  intros Hnone. unfold close. rewrite bind_get_self. unfold sio_active.
  rewrite Hnone. reflexivity.
Qed.

Section Operations.

Context (env : Env).

(** No public operation opens a connection on a client that has none. *)
Lemma run_op_keeps_closed o st :
  sio (client st) = None -> sio (client (run_op env o st)) = None.
Proof.
  intros Hnone. destruct o as [c | event h | event h |]; cbn [run_op].
  - rewrite invoke_http by (apply sio_active_false; exact Hnone).
    rewrite http_path_run. exact Hnone.
  - cbn [client]. rewrite sio_on. exact Hnone.
  - cbn [client]. rewrite sio_off. exact Hnone.
  - apply close_run.
Qed.

Lemma run_ops_keeps_closed ops :
  forall st, sio (client st) = None -> sio (client (run_ops env ops st)) = None.
Proof.
  induction ops as [| o ops IH]; intros st Hnone; [exact Hnone |].
  cbn [run_ops fold_left]. apply IH. apply run_op_keeps_closed. exact Hnone.
Qed.

End Operations.

(* ===================================================================== *)
(** * The claims *)
(* ===================================================================== *)

Import Scenario.

(** ** The synchronous bridge *)

(** C5.  Called on a client without a real-time connection,
    [_socket_request] raises at once: the state it leaves is the state it
    found, so nothing was emitted and no time has passed. *)
Theorem socket_request_fails_without_connection env event data st :
  sio (client st) = None ->
  _socket_request env event data st
    = (Raises (Exception (PyStr "WebSocket is not enabled or connected")), st).
Proof.
  intros Hnone. apply socket_request_inactive, sio_active_false. exact Hnone.
Qed.

Lemma socket_request_fails_without_connection_witness :
  sio (client http_client) = None /\
  _socket_request (socket_server 50 bare_success) "agent:get" PyNone http_client
    = (Raises (Exception (PyStr "WebSocket is not enabled or connected")), http_client).
Proof.
  split; [reflexivity |].
  apply (socket_request_fails_without_connection
           (socket_server 50 bare_success) "agent:get" PyNone http_client).
  reflexivity.
Defined.

(** C4.  On a connection, when the reply to the emission does not arrive
    before the deadline (the instant of the call plus the configured
    timeout), [_socket_request] raises the timeout error, whose message
    names the event; it does so exactly at the deadline, after one emission.
    The clock counts milliseconds and a round of the loop lasts 100 of
    them. *)
Theorem socket_request_timeout env event data st :
  sio_active (client st) = true ->
  0 <= timeout (client st) ->
  (forall delay response,
     sio_reply env (trace (world st)) event (py_or data (PyDict [])) = Some (delay, response) ->
     1000 * timeout (client st) <= Z.of_N delay) ->
  exists message st',
    _socket_request env event data st = (Raises (Exception (PyStr message)), st') /\
    message = "WebSocket request timeout for event: " +:+ event /\
    contains message event /\
    clock (world st') = clock (world st) + 1000 * timeout (client st) /\
    emissions (trace (world st'))
      = emissions (trace (world st)) ++ [(event, py_or data (PyDict []))].
Proof.
  intros Hon HT Hlate.
  exists ("WebSocket request timeout for event: " +:+ event).
  eexists. split; [apply socket_request_times_out; assumption |].
  split; [reflexivity |]. split; [apply contains_end |]. split.
  - unfold after_polls, after_emit. cbn [world clock]. lia.
  - apply emissions_after_polls.
Qed.

Lemma socket_request_timeout_witness :
  exists message st',
    _socket_request (http_server ok_response) "agent:get" PyNone realtime_client
      = (Raises (Exception (PyStr message)), st') /\
    message = "WebSocket request timeout for event: " +:+ "agent:get" /\
    contains message "agent:get" /\
    clock (world st') = clock (world realtime_client) + 1000 * timeout (client realtime_client) /\
    emissions (trace (world st'))
      = emissions (trace (world realtime_client)) ++ [("agent:get", py_or PyNone (PyDict []))].
Proof.
  apply (socket_request_timeout (http_server ok_response) "agent:get" PyNone realtime_client).
  - reflexivity.
  - vm_compute. discriminate.
  - intros delay response Hreply. vm_compute in Hreply. discriminate.
Defined.

(** A failure reply that carries a message, or no [error] field at all,
    makes [_socket_request] raise that message, or the generic one. *)
Lemma socket_request_failure_raises env event data st delay d :
  sio_active (client st) = true ->
  sio_reply env (trace (world st)) event (py_or data (PyDict [])) = Some (delay, PyDict d) ->
  Z.of_N delay < 1000 * timeout (client st) ->
  truthy (dict_get d "success" PyNone) = false ->
  truthy (dict_get d "error" (PyStr "Unknown error")) = true ->
  fst (_socket_request env event data st)
    = Raises (Exception (dict_get d "error" (PyStr "Unknown error"))).
Proof.
  intros Hon Hreply Hearly Hfail Hmsg.
  destruct (socket_request_receives env event data st delay (PyDict d) Hon Hreply Hearly)
    as (k & ->).
  cbn [fst callback]. rewrite Hfail. unfold bridge_outcome. cbn [response_error].
  rewrite Hmsg. reflexivity.
Qed.

Example socket_request_failure_X :
  fst (_socket_request (socket_server 50 failure_X) "agent:get" PyNone realtime_client)
    = Raises (Exception (PyStr "X")).
Proof.
  apply (socket_request_failure_raises (socket_server 50 failure_X) "agent:get" PyNone
           realtime_client 50%N [("success", PyBool false); ("error", PyStr "X")]);
    reflexivity.
Qed.

Example socket_request_failure_unknown :
  fst (_socket_request (socket_server 50 (PyDict [("success", PyBool false)]))
         "agent:get" PyNone realtime_client)
    = Raises (Exception (PyStr "Unknown error")).
Proof.
  apply (socket_request_failure_raises (socket_server 50 (PyDict [("success", PyBool false)]))
           "agent:get" PyNone realtime_client 50%N [("success", PyBool false)]);
    reflexivity.
Qed.

(** C3.  The reply whose [success] is [false] and whose [error] is the
    empty string (the scenario [failure_without_message]), received well before
    the deadline: [_socket_request] does not raise, it returns [None].  The
    test [if response_error:] takes the empty message for no error. *)
Theorem socket_request_failure_with_empty_message_returns_none :
  truthy (dict_get [("success", PyBool false); ("error", PyStr EmptyString)] "success" PyNone)
    = false /\
  fst (_socket_request (socket_server 50 failure_without_message) "agent:get"
         (PyDict [("agentId", PyStr "a1")]) realtime_client)
    = Returns PyNone.
Proof.
  split; [reflexivity |].
  destruct (socket_request_receives (socket_server 50 failure_without_message) "agent:get"
              (PyDict [("agentId", PyStr "a1")]) realtime_client 50%N
              failure_without_message) as (k & ->); reflexivity.
Qed.

(** C9.  On the real-time path of any domain method, a reply received
    before the deadline whose [success] is truthy but which lacks the field
    that the method reads makes the method raise [KeyError] on that field. *)
Theorem missing_field_raises_key_error env c st event payload field delay d :
  sio_active (client st) = true ->
  socket_route c = Some (event, payload, field) ->
  sio_reply env (trace (world st)) event (py_or payload (PyDict [])) = Some (delay, PyDict d) ->
  Z.of_N delay < 1000 * timeout (client st) ->
  truthy (dict_get d "success" PyNone) = true ->
  dict_lookup d field = None ->
  fst (invoke env c st) = Raises (KeyError field).
Proof.
  intros Hon Hroute Hreply Hearly Hsuccess Hmissing.
  rewrite invoke_facade_pattern. unfold facade_pattern. rewrite Hroute.
  rewrite bind_get_self, Hon. unfold mbind, M_bind.
  destruct (socket_request_receives env event payload st delay (PyDict d) Hon Hreply Hearly)
    as (k & ->).
  cbn [callback]. rewrite Hsuccess. unfold bridge_outcome. cbn [response_error response_data truthy].
  unfold subscript. rewrite Hmissing. reflexivity.
Qed.

Lemma missing_field_raises_key_error_witness :
  fst (invoke (socket_server 50 bare_success) (ListTasks PyNone) realtime_client)
    = Raises (KeyError "tasks").
Proof.
  apply (missing_field_raises_key_error (socket_server 50 bare_success) (ListTasks PyNone)
           realtime_client "task:list" (PyDict [("filter", PyNone)]) "tasks" 50%N
           [("success", PyBool true)]); reflexivity.
Defined.

(** ** The request layer *)

(** C8, as stated, fails.  A response that is not 2xx and carries a JSON
    body does not always make [_request] raise: [raise_for_status] lets the
    status 300 pass, and [_request] returns the parsed body. *)
Lemma request_returns_on_status_300 :
  status_code multiple_choices = 300 /\
  ~ (200 <= status_code multiple_choices < 300) /\
  json multiple_choices = Some error_body /\
  fst (_request (http_server multiple_choices) "GET" "/api/v1/agents/a1" PyNone PyNone
         http_client)
    = Returns error_body.
Proof.
  split; [reflexivity |]. split; [cbn; lia |]. split; [reflexivity |].
  rewrite request_run. reflexivity.
Qed.

(** C8, amended.  A response with a status from 400 to 599 makes
    [_request] raise an [Exception] whose message holds the status code and
    then the body: serialised by [json.dumps] when the body is JSON, as raw
    text when it is not.  A failure of the HTTP call that carries no
    response is raised again as it is. *)
Theorem request_reports_http_errors env method path data params st :
  let outcome := requests_request env (trace (world st)) (request_of st method path data params) in
  let result := fst (_request env method path data params st) in
  (forall r v,
     outcome = HttpResponds r -> 400 <= status_code r < 600 -> json r = Some v ->
     result = Raises (Exception (PyStr ("API error: " +:+ pretty (status_code r) +:+ " - " +:+
                                        json_dumps v))) /\
     contains (api_error r) (pretty (status_code r)) /\
     contains (api_error r) (json_dumps v)) /\
  (forall r,
     outcome = HttpResponds r -> 400 <= status_code r < 600 -> json r = None ->
     result = Raises (Exception (PyStr ("API error: " +:+ pretty (status_code r) +:+ " - " +:+
                                        text r)))) /\
  (forall cls,
     outcome = HttpRaises (RequestException cls None) ->
     result = Raises (RequestException cls None)).
Proof.
  intros outcome result. unfold result. rewrite request_run. cbn [fst]. fold outcome.
  assert (Herr : forall r, 400 <= status_code r < 600 ->
            (400 <=? status_code r) && (status_code r <? 600) = true).
  { intros r [Hlo Hhi]. apply andb_true_intro. split; [apply Z.leb_le | apply Z.ltb_lt]; lia. }
  split; [| split].
  - intros r v Hresp Hstatus Hjson. split; [| split].
    + rewrite Hresp. cbn [request_result]. rewrite (Herr r) by lia.
      unfold api_error. rewrite Hjson. reflexivity.
    + apply api_error_contains_status.
    + pose proof (api_error_contains_body r) as Hbody. rewrite Hjson in Hbody. exact Hbody.
  - intros r Hresp Hstatus Hjson.
    rewrite Hresp. cbn [request_result]. rewrite (Herr r) by lia.
    unfold api_error. rewrite Hjson. reflexivity.
  - intros cls Hfail. rewrite Hfail. reflexivity.
Qed.

Lemma request_reports_http_errors_witness :
  fst (_request (http_server not_found) "GET" "/api/v1/agents/a1" PyNone PyNone http_client)
    = Raises (Exception (PyStr ("API error: 404 - " +:+ json_dumps error_body))) /\
  contains (api_error not_found) "404" /\
  contains (api_error not_found) (json_dumps error_body) /\
  fst (_request (http_server bad_gateway) "GET" "/api/v1/agents/a1" PyNone PyNone http_client)
    = Raises (Exception (PyStr "API error: 502 - Bad Gateway")) /\
  fst (_request unreachable "GET" "/api/v1/agents/a1" PyNone PyNone http_client)
    = Raises (RequestException "ConnectionError" None).
Proof.
  destruct (request_reports_http_errors (http_server not_found) "GET" "/api/v1/agents/a1"
              PyNone PyNone http_client) as (Hjson & _ & _).
  destruct (request_reports_http_errors (http_server bad_gateway) "GET" "/api/v1/agents/a1"
              PyNone PyNone http_client) as (_ & Htext & _).
  destruct (request_reports_http_errors unreachable "GET" "/api/v1/agents/a1"
              PyNone PyNone http_client) as (_ & _ & Hnet).
  destruct (Hjson not_found error_body) as (Hraise & Hstatus & Hbody);
    [reflexivity | cbn; lia | reflexivity |].
  split; [exact Hraise |]. split; [exact Hstatus |]. split; [exact Hbody |].
  split.
  - apply (Htext bad_gateway); [reflexivity | cbn; lia | reflexivity].
  - apply (Hnet "ConnectionError"). reflexivity.
Defined.

(** ** The domain facade *)

(** C1, as stated, fails.  [health] does not follow the uniform pattern: on
    an active connection it still goes through the request layer, and no
    choice of event, payload and field makes the pattern do the same. *)
Lemma health_ignores_the_connection : ~ follows_uniform_pattern Health.
Proof.
  intros (event & payload & field & body & query & Hsame).
  specialize (Hsame (http_server ok_response) realtime_client).
  apply (f_equal fst) in Hsame.
  cbn [invoke] in Hsame. unfold health in Hsame. rewrite request_run in Hsame.
  unfold uniform_pattern in Hsame. rewrite bind_get_self in Hsame.
  change (sio_active (client realtime_client)) with true in Hsame. cbv iota in Hsame.
  unfold mbind, M_bind in Hsame.
  rewrite (socket_request_times_out (http_server ok_response) event payload realtime_client)
    in Hsame.
  - cbn [fst request_result] in Hsame. vm_compute in Hsame. discriminate.
  - reflexivity.
  - vm_compute. discriminate.
  - intros delay response Hreply. vm_compute in Hreply. discriminate.
Qed.

(** The two deletions do not follow it either: on the HTTP path they
    return [True], whatever the request layer returned. *)
Lemma delete_agent_drops_the_result : ~ follows_uniform_pattern (DeleteAgent "a1").
Proof.
  intros (event & payload & field & body & query & Hsame).
  specialize (Hsame (http_server ok_response) http_client).
  apply (f_equal fst) in Hsame.
  rewrite invoke_http, http_path_run in Hsame by reflexivity.
  unfold uniform_pattern in Hsame. rewrite bind_get_self in Hsame.
  change (sio_active (client http_client)) with false in Hsame. cbv iota in Hsame.
  rewrite request_run in Hsame. vm_compute in Hsame. discriminate.
Qed.

(** C1, amended.  Every domain method but [health] branches on the
    connection: active, it makes one exchange through [_socket_request] with
    the event and payload of its route and returns the field of its route
    from the reply; otherwise it calls [_request] once with the verb and path
    of the table, and returns its result, except that [delete_agent] and
    [delete_task] return [True].  [health] is the only method without a
    real-time route and always calls [_request]. *)
Theorem domain_methods_follow_their_routes env c st :
  invoke env c st = facade_pattern env c st /\
  (socket_route c = None <-> c = Health) /\
  (is_delete c = false ->
   sio_active (client st) = false ->
   invoke env c st
     = _request env (fst (spec_route c)) (snd (spec_route c)) (http_body c) (http_query c) st).
Proof.
  split; [apply invoke_facade_pattern |]. split.
  - destruct c; cbn [socket_route]; split; intros H; congruence.
  - intros Hkeep Hoff. rewrite invoke_http by exact Hoff.
    unfold http_path. rewrite Hkeep. apply bind_ret_r.
Qed.

Lemma domain_methods_follow_their_routes_witness :
  invoke (http_server ok_response) (GetTask "t1") http_client
    = _request (http_server ok_response) "GET" ("/api/v1/tasks/" +:+ "t1") PyNone PyNone
               http_client.
Proof.
  destruct (domain_methods_follow_their_routes (http_server ok_response) (GetTask "t1")
              http_client) as (_ & _ & Hhttp).
  apply Hhttp; reflexivity.
Defined.

(** Without a connection, a deletion returns [True] as soon as the server
    answers with a status that is no error and a body that is JSON. *)
Lemma delete_returns_true env c st r v :
  is_delete c = true ->
  sio_active (client st) = false ->
  requests_request env (trace (world st))
    (request_of st (fst (spec_route c)) (snd (spec_route c)) (http_body c) (http_query c))
    = HttpResponds r ->
  (400 <=? status_code r) && (status_code r <? 600) = false ->
  json r = Some v ->
  fst (invoke env c st) = Returns (PyBool true).
Proof.
  intros Hdel Hoff Hresp Hok Hjson.
  rewrite invoke_http by exact Hoff. rewrite http_path_run. cbn [fst].
  rewrite Hresp. cbn [request_result]. rewrite Hok, Hjson, Hdel. reflexivity.
Qed.

(** C2.  [204 No Content], the success without a body: on the HTTP path
    [delete_agent] and [delete_task] do not return [True]; the decoding error
    of [response.json()] inside [_request] comes out of them. *)
Theorem delete_raises_on_empty_body :
  200 <= status_code no_content < 300 /\
  text no_content = EmptyString /\
  fst (delete_agent (http_server no_content) "a1" http_client)
    = Raises (RequestException "JSONDecodeError" None) /\
  fst (delete_task (http_server no_content) "t1" http_client)
    = Raises (RequestException "JSONDecodeError" None).
Proof.
  split; [cbn; lia |]. split; [reflexivity |]. split.
  - change (delete_agent (http_server no_content) "a1")
      with (invoke (http_server no_content) (DeleteAgent "a1")).
    rewrite invoke_http, http_path_run by reflexivity. reflexivity.
  - change (delete_task (http_server no_content) "t1")
      with (invoke (http_server no_content) (DeleteTask "t1")).
    rewrite invoke_http, http_path_run by reflexivity. reflexivity.
Qed.

(** ** Event subscription and dispatch *)

(** What a dispatch adds to the invocations, when no handler touches the
    list of the event. *)
Lemma trigger_event_invocations env event args fuel st :
  registry_stable env event ->
  (length (handlers_for (client st) event) <= fuel)%nat ->
  fst (_trigger_event env fuel event args st) = Returns tt /\
  invocations (trace (world (snd (_trigger_event env fuel event args st))))
    = invocations (trace (world st)) ++
      map (fun h => (h, args)) (handlers_for (client st) event).
Proof.
  intros Hstable Hfuel.
  rewrite (trigger_event_stable env event args fuel st Hstable Hfuel).
  cbn [fst snd world trace]. split; [reflexivity |].
  rewrite invocations_app, invocations_dispatch_effects. reflexivity.
Qed.

(** Handlers that leave the client as it is keep every registry stable. *)
Lemma idle_handlers_stable env event :
  (forall h args c, fst (call_handler env h args c) = c) -> registry_stable env event.
Proof.
  intros Hidle h args c. rewrite Hidle. reflexivity.
Qed.

(** C6, as stated, fails.  [off] does not match by identity: given the
    bound method [o.m] of a second attribute access, which is another
    object than the registered one, it removes the registered one. *)
Lemma off_removes_an_equal_bound_method :
  py_is method_1 method_2 = false /\
  handlers_for (on (client http_client) "task_updated" method_1) "task_updated"
    = [method_1] /\
  handlers_for (off (on (client http_client) "task_updated" method_1) "task_updated" method_2)
               "task_updated"
    = [].
Proof.
  split; [reflexivity |]. split.
  - rewrite handlers_for_on. reflexivity.
  - rewrite handlers_for_off, handlers_for_on. reflexivity.
Qed.

(** C6, amended.  [on] appends the handler to the list of its event, even
    when it is there already.  [off] removes the first item of that list
    that equals the handler, where equal is Python's [==] (the same object,
    or two bound methods of one object and one function), and nothing else.
    When no handler touches the list during a dispatch, a handler registered
    twice is invoked twice by it, and once more than before after one [off]. *)
Theorem on_appends_off_removes_first env event h args fuel st :
  registry_stable env event ->
  (length (handlers_for (client st) event) + 2 <= fuel)%nat ->
  let c := client st in
  let l := handlers_for c event in
  let twice := mkState (on (on c event h) event h) (world st) in
  let once := mkState (off (on (on c event h) event h) event h) (world st) in
  handlers_for (on c event h) event = l ++ [h] /\
  handlers_for (off c event h) event = list_remove h l /\
  (list_contains h l = false -> list_remove h l = l) /\
  (list_contains h l = true ->
   exists before x after,
     l = before ++ x :: after /\ py_eq x h = true /\
     list_contains h before = false /\ list_remove h l = before ++ after) /\
  handlers_for (client twice) event = l ++ [h; h] /\
  invocations (trace (world (snd (_trigger_event env fuel event args twice))))
    = invocations (trace (world st)) ++ map (fun x => (x, args)) (l ++ [h; h]) /\
  registrations h (handlers_for (client once) event) = S (registrations h l) /\
  invocations (trace (world (snd (_trigger_event env fuel event args once))))
    = invocations (trace (world st)) ++
      map (fun x => (x, args)) (list_remove h (l ++ [h; h])).
Proof.
  intros Hstable Hfuel c l twice once.
  assert (Htwice : handlers_for (client twice) event = l ++ [h; h]).
  { unfold twice. cbn [client]. rewrite !handlers_for_on. fold c. fold l.
    rewrite <- app_assoc. reflexivity. }
  assert (Honce : handlers_for (client once) event = list_remove h (l ++ [h; h])).
  { unfold once. cbn [client]. rewrite handlers_for_off. fold c.
    change (on (on c event h) event h) with (client twice). rewrite Htwice. reflexivity. }
  assert (Hcount : registrations h (list_remove h (l ++ [h; h])) = S (registrations h l)).
  { rewrite registrations_remove, registrations_app, !registrations_cons, py_eq_refl.
    cbn. lia. }
  assert (Hlen : (length (list_remove h (l ++ [h; h])) <= length (l ++ [h; h]))%nat).
  { generalize (l ++ [h; h]). intros l'. induction l' as [| y l' IH]; [reflexivity |].
    cbn [list_remove]. destruct (py_eq y h); cbn [length]; lia. }
  split; [apply handlers_for_on |]. split; [apply handlers_for_off |].
  split; [apply list_remove_absent |]. split; [apply list_remove_first |].
  split; [exact Htwice |]. split; [| split].
  - destruct (trigger_event_invocations env event args fuel twice Hstable) as [_ Hinv].
    + rewrite Htwice, length_app. cbn [length]. fold c in Hfuel. fold l in Hfuel. lia.
    + rewrite Hinv, Htwice. reflexivity.
  - rewrite Honce. exact Hcount.
  - destruct (trigger_event_invocations env event args fuel once Hstable) as [_ Hinv].
    + rewrite Honce. rewrite length_app in Hlen. cbn [length] in Hlen.
      fold c in Hfuel. fold l in Hfuel. lia.
    + rewrite Hinv, Honce. reflexivity.
Qed.

Lemma on_appends_off_removes_first_witness :
  handlers_for (client two_handlers) "task_updated" = [first; second] /\
  invocations
    (trace (world (snd (_trigger_event raising_env 4 "task_updated" [PyInt 1]
                          (mkState (off (on (on (client two_handlers) "task_updated" second)
                                            "task_updated" second)
                                        "task_updated" second)
                                   (world two_handlers))))))
    = [(first, [PyInt 1]); (second, [PyInt 1]); (second, [PyInt 1])].
Proof.
  split; [reflexivity |].
  destruct (on_appends_off_removes_first raising_env "task_updated" second [PyInt 1] 4%nat
              two_handlers) as (_ & _ & _ & _ & _ & _ & _ & Hinv).
  - apply idle_handlers_stable. reflexivity.
  - vm_compute. lia.
  - rewrite Hinv. reflexivity.
Defined.

(** C7.  Two handlers are registered for an event, and the first one
    unregisters itself when it runs.  The dispatch of that event returns
    having invoked the first handler only: the second one, still registered
    afterwards, is never invoked.  The loop walks the list of the registry
    itself while [off] removes from it in place, so the second handler moves
    to the position already visited. *)
Lemma self_removing_handler_hides_the_next :
  handlers_for (client two_handlers) "task_updated" = [first; second] /\
  fst (_trigger_event once_env 5 "task_updated" [PyInt 1] two_handlers) = Returns tt /\
  invocations
    (trace (world (snd (_trigger_event once_env 5 "task_updated" [PyInt 1] two_handlers))))
    = [(first, [PyInt 1])] /\
  handlers_for
    (client (snd (_trigger_event once_env 5 "task_updated" [PyInt 1] two_handlers)))
    "task_updated"
    = [second].
Proof.
  split; [reflexivity |]. split; [| split]; vm_compute; reflexivity.
Qed.

(** The dispatch on a list that stays as it is.  When the handlers leave
    the handler list of the event alone while the dispatch runs,
    [_trigger_event] invokes every handler of that list once, in the order of
    registration; a handler that raises an [Exception] has it printed and the
    next ones still run; the dispatch itself returns. *)
Theorem dispatch_isolates_handlers env event args fuel st :
  registry_stable env event ->
  (length (handlers_for (client st) event) <= fuel)%nat ->
  let hs := handlers_for (client st) event in
  let run := dispatch_effects env event args hs (client st) in
  _trigger_event env fuel event args st
    = (Returns tt,
       mkState (snd run) (mkWorld (clock (world st)) (trace (world st) ++ fst run))) /\
  invocations (fst run) = map (fun h => (h, args)) hs.
Proof.
  intros Hstable Hfuel hs run. split.
  - apply trigger_event_stable; assumption.
  - apply invocations_dispatch_effects.
Qed.

Lemma dispatch_isolates_handlers_witness :
  _trigger_event raising_env 2 "task_updated" [PyInt 1] two_handlers
    = (Returns tt,
       mkState (client two_handlers)
         (mkWorld 0
            [Invoke first [PyInt 1];
             Print "Error in event handler for task_updated: "
                   (OtherError "ValueError" (PyStr "boom"));
             Invoke second [PyInt 1];
             Print "Error in event handler for task_updated: "
                   (OtherError "ValueError" (PyStr "boom"))])).
Proof.
  destruct (dispatch_isolates_handlers raising_env "task_updated" [PyInt 1] 2%nat two_handlers)
    as (Hrun & _).
  - apply idle_handlers_stable. reflexivity.
  - vm_compute. lia.
  - rewrite Hrun. reflexivity.
Defined.

(** ** Closing *)

(** C10.  After [close] the client has no connection, and no sequence of
    public operations gives it one again: every later domain method takes its
    HTTP path, making one HTTP call and no emission, and [_socket_request]
    raises at once.  A second [close] changes nothing. *)
Theorem close_is_final env st ops c event data :
  let closed := snd (close st) in
  let later := run_ops env ops closed in
  fst (close st) = Returns tt /\
  sio (client closed) = None /\
  sio (client later) = None /\
  invoke env c later = http_path env c later /\
  (exists req, trace (world (snd (invoke env c later))) = trace (world later) ++ [HttpCall req]) /\
  emissions (trace (world (snd (invoke env c later)))) = emissions (trace (world later)) /\
  _socket_request env event data later
    = (Raises (Exception (PyStr "WebSocket is not enabled or connected")), later) /\
  close closed = (Returns tt, closed).
Proof.
  intros closed later.
  destruct (close_run st) as [Hret Hclosed]. fold closed in Hclosed.
  assert (Hlater : sio (client later) = None)
    by (apply run_ops_keeps_closed; exact Hclosed).
  assert (Hoff : sio_active (client later) = false)
    by (apply sio_active_false; exact Hlater).
  split; [exact Hret |]. split; [exact Hclosed |]. split; [exact Hlater |].
  split; [apply invoke_http; exact Hoff |].
  rewrite (invoke_http env c later Hoff), http_path_run. cbn [snd].
  split; [eexists; reflexivity |]. split; [apply emissions_after_http |].
  split; [apply socket_request_inactive; exact Hoff |].
  apply close_closed. exact Hclosed.
Qed.

(* ===================================================================== *)
(** * Further properties *)
(* ===================================================================== *)

(** ** Construction *)

(** What a constructor call leaves: the client and the effects. *)
Lemma init_run env base key seconds websocket ws_url st :
  __init__ env base key seconds websocket ws_url st =
    (Returns tt,
     mkState
       (mkClient base key seconds websocket (connect_url base ws_url)
                 (credentials key)
                 (if websocket
                  then match sio_connect env (connect_url base ws_url)
                                         (connect_auth key) with
                       | Some _ => None
                       | None => Some socketio_Client
                       end
                  else None)
                 ∅)
       (mkWorld (clock (world st))
                (trace (world st) ++
                 construction_effects env base key websocket ws_url))).
Proof.
  assert (Hurl : (if str_truthy ws_url then default EmptyString ws_url
                  else base) = connect_url base ws_url).
  { destruct ws_url as [[| a u] |]; reflexivity. }
  assert (Hhdr : (if str_truthy key
                  then [("Content-Type", "application/json")] ++
                       [("Authorization", "Bearer " +:+ default EmptyString key)]
                  else [("Content-Type", "application/json")]) = credentials key).
  { destruct key as [[| a k] |]; reflexivity. }
  unfold __init__, _setup_websocket, construction_effects. cbv zeta.
  rewrite Hurl, Hhdr. unfold_M.
  destruct websocket; cbn [client world clock trace set_sio set_event_handlers websocket_url
                           api_key base_url timeout use_websocket headers sio
                           event_handlers].
  - fold (connect_auth key).
    destruct (sio_connect env (connect_url base ws_url) (connect_auth key));
      cbn [client world clock trace set_sio set_event_handlers websocket_url
             api_key base_url timeout use_websocket headers sio event_handlers];
      rewrite <- ?app_assoc; reflexivity.
  - rewrite app_nil_r. destruct st as [c [t tr]]. reflexivity.
Qed.

(** A constructor call never raises.  It tries the real-time connection at
    most once, to [websocket_url] or else to [base_url], with the key as
    token; the client has a connection exactly when that was asked for and
    [connect] did not raise; and the client starts without any handler. *)
Theorem construction_connects_at_most_once env base key seconds websocket ws_url st :
  let built := snd (__init__ env base key seconds websocket ws_url st) in
  fst (__init__ env base key seconds websocket ws_url st) = Returns tt /\
  (sio_active (client built) = true <->
   websocket = true /\
   sio_connect env (connect_url base ws_url) (connect_auth key) = None) /\
  trace (world built)
    = trace (world st) ++ construction_effects env base key websocket ws_url /\
  clock (world built) = clock (world st) /\
  (forall event, handlers_for (client built) event = []).
Proof.
  intros built. unfold built. rewrite init_run. cbn [fst snd client world clock trace].
  split; [reflexivity |]. split; [| split; [reflexivity | split; [reflexivity |]]].
  - unfold sio_active. cbn [sio]. destruct websocket.
    + destruct (sio_connect env (connect_url base ws_url) (connect_auth key));
        split; [discriminate | intros [_ H]; discriminate | auto | reflexivity].
    + split; [discriminate | intros [H _]; discriminate].
  - intros event. unfold handlers_for. cbn [event_handlers].
    rewrite lookup_empty. reflexivity.
Qed.

(** Every HTTP call of a constructed client goes to [base_url] followed by
    the path, with the timeout given to the constructor and with the headers
    of the constructor: the content type, and the bearer authorization when
    and only when a non-empty key was given. *)
Theorem constructed_client_sends_credentials
    env env' base key seconds websocket ws_url st method path data params :
  let built := snd (__init__ env base key seconds websocket ws_url st) in
  trace (world (snd (_request env' method path data params built)))
    = trace (world built) ++
      [HttpCall (mkHttpRequest method (base +:+ path) (credentials key) data params seconds)] /\
  (forall value,
     In ("Authorization", value) (credentials key) <->
     exists a k, key = Some (String a k) /\ value = "Bearer " +:+ String a k).
Proof.
  intros built. split.
  - rewrite request_run. unfold after_http, request_of. cbn [snd world trace].
    unfold built. rewrite init_run. reflexivity.
  - intros value. unfold credentials. destruct key as [[| a k] |]; cbn [In].
    + split; [intros [H | []]; discriminate | intros (a & k & H & _); discriminate].
    + split.
      * intros [H | [H | []]]; [discriminate |]. injection H as <-. eauto.
      * intros (a' & k' & H & ->). injection H as <- <-. right. left. reflexivity.
    + split; [intros [H | []]; discriminate | intros (a & k & H & _); discriminate].
Qed.

(** A client built without the real-time channel, or whose connection
    attempt raised, stays on HTTP for its whole life: after any sequence of
    public operations every domain method takes its HTTP path and emits
    nothing. *)
Theorem failed_connection_leaves_http_only
    env env' base key seconds websocket ws_url st ops c :
  websocket = false \/
  sio_connect env (connect_url base ws_url) (connect_auth key) <> None ->
  let built := snd (__init__ env base key seconds websocket ws_url st) in
  let later := run_ops env' ops built in
  invoke env' c later = http_path env' c later /\
  emissions (trace (world (snd (invoke env' c later)))) = emissions (trace (world later)).
Proof.
  intros Hno built later.
  assert (Hbuilt : sio (client built) = None).
  { unfold built. rewrite init_run. cbn [snd client sio].
    destruct Hno as [-> | Hfail]; [reflexivity |].
    destruct websocket; [| reflexivity].
    destruct (sio_connect env (connect_url base ws_url) (connect_auth key));
      [reflexivity | congruence]. }
  assert (Hoff : sio_active (client later) = false).
  { apply sio_active_false. apply run_ops_keeps_closed. exact Hbuilt. }
  split; [apply invoke_http; exact Hoff |].
  rewrite (invoke_http env' c later Hoff), http_path_run. apply emissions_after_http.
Qed.

Lemma failed_connection_leaves_http_only_witness :
  let built := snd (__init__ (Cases.refusing Scenario.ok_response) "http://host" (Some "k") 2
                             true None Scenario.start) in
  let later := run_ops (Cases.refusing Scenario.ok_response) [OpCall Health] built in
  invoke (Cases.refusing Scenario.ok_response) ListTools later
    = http_path (Cases.refusing Scenario.ok_response) ListTools later /\
  emissions (trace (world (snd (invoke (Cases.refusing Scenario.ok_response) ListTools later))))
    = emissions (trace (world later)).
Proof.
  apply (failed_connection_leaves_http_only (Cases.refusing Scenario.ok_response)
           (Cases.refusing Scenario.ok_response) "http://host" (Some "k") 2 true None
           Scenario.start [OpCall Health] ListTools).
  right. vm_compute. discriminate.
Defined.

(** ** The request layer, further *)

(** An exception of [requests.request] that carries a response becomes the
    same [API error] message as an error status, whatever the status of that
    response; any other exception comes out of [_request] as it is.  One HTTP
    call was made, and none is made again. *)
Theorem request_translates_exceptions env method path data params st e :
  requests_request env (trace (world st)) (request_of st method path data params)
    = HttpRaises e ->
  _request env method path data params st =
    (match e with
     | RequestException _ (Some r) => Raises (Exception (PyStr (api_error r)))
     | _ => Raises e
     end,
     after_http (request_of st method path data params) st).
Proof.
  intros Hraise. rewrite request_run. cbv zeta. rewrite Hraise. reflexivity.
Qed.

Lemma request_translates_exceptions_witness :
  fst (_request (Cases.failing_with Cases.redirect) "GET" "/health" PyNone PyNone http_client)
    = Raises (Exception (PyStr "API error: 302 - moved")).
Proof.
  rewrite (request_translates_exceptions (Cases.failing_with Cases.redirect) "GET" "/health"
             PyNone PyNone http_client
             (RequestException "TooManyRedirects" (Some Cases.redirect)));
    reflexivity.
Defined.

(** Without a connection, a response whose status is no error and whose
    body is JSON makes every domain method return the parsed body as it is
    (the two deletions return [True]), after exactly one HTTP call on the
    route of the method and without any wait. *)
Theorem http_call_returns_the_parsed_body env c st r v :
  sio_active (client st) = false ->
  requests_request env (trace (world st))
    (request_of st (fst (spec_route c)) (snd (spec_route c)) (http_body c) (http_query c))
    = HttpResponds r ->
  (400 <=? status_code r) && (status_code r <? 600) = false ->
  json r = Some v ->
  invoke env c st =
    (Returns (if is_delete c then PyBool true else v),
     after_http
       (request_of st (fst (spec_route c)) (snd (spec_route c)) (http_body c) (http_query c))
       st).
Proof.
  intros Hoff Hresp Hok Hjson.
  rewrite invoke_http by exact Hoff. rewrite http_path_run. cbv zeta.
  rewrite Hresp. cbn [request_result]. rewrite Hok, Hjson. reflexivity.
Qed.

Lemma http_call_returns_the_parsed_body_witness :
  fst (invoke (http_server not_found) (GetAgent "a1") http_client)
    = Raises (Exception (PyStr (api_error not_found))) /\
  invoke (http_server ok_response) (GetAgent "a1") http_client
    = (Returns (PyDict []),
       after_http (request_of http_client "GET" ("/api/v1/agents/" +:+ "a1") PyNone PyNone)
                  http_client).
Proof.
  split.
  - rewrite invoke_http, http_path_run by reflexivity. reflexivity.
  - apply (http_call_returns_the_parsed_body (http_server ok_response) (GetAgent "a1")
             http_client ok_response (PyDict [])); reflexivity.
Defined.

(** Without a connection, a response whose status is no error but whose
    body is not JSON makes every domain method raise the decoding error of
    [response.json()], [health] and the deletions included. *)
Theorem http_call_raises_on_a_body_that_is_not_json env c st r :
  sio_active (client st) = false ->
  requests_request env (trace (world st))
    (request_of st (fst (spec_route c)) (snd (spec_route c)) (http_body c) (http_query c))
    = HttpResponds r ->
  (400 <=? status_code r) && (status_code r <? 600) = false ->
  json r = None ->
  fst (invoke env c st) = Raises (RequestException "JSONDecodeError" None).
Proof.
  intros Hoff Hresp Hok Hjson.
  rewrite invoke_http by exact Hoff. rewrite http_path_run. cbv zeta. cbn [fst].
  rewrite Hresp. cbn [request_result]. rewrite Hok, Hjson. reflexivity.
Qed.

Lemma http_call_raises_on_a_body_that_is_not_json_witness :
  fst (invoke (http_server Cases.html_page) Health http_client)
    = Raises (RequestException "JSONDecodeError" None).
Proof.
  apply (http_call_raises_on_a_body_that_is_not_json (http_server Cases.html_page) Health
           http_client Cases.html_page); reflexivity.
Defined.

(** On the HTTP path an empty filter is no filter: [list_agents] and
    [list_tasks] with a falsy filter ([None], the empty dict) make the very
    call they make without a filter, whose query has no [filter] parameter. *)
Theorem empty_filter_is_no_filter env filter st :
  sio_active (client st) = false ->
  truthy filter = false ->
  invoke env (ListAgents filter) st = invoke env (ListAgents PyNone) st /\
  invoke env (ListTasks filter) st = invoke env (ListTasks PyNone) st /\
  snd (invoke env (ListAgents filter) st)
    = after_http (request_of st "GET" "/api/v1/agents" PyNone (PyDict [])) st /\
  snd (invoke env (ListTasks filter) st)
    = after_http (request_of st "GET" "/api/v1/tasks" PyNone (PyDict [])) st.
Proof.
  intros Hoff Hf.
  rewrite !invoke_http by exact Hoff. rewrite !http_path_run.
  cbn [spec_route fst snd http_body http_query is_delete]. unfold filter_params.
  rewrite Hf. cbn [truthy]. repeat split.
Qed.

Lemma empty_filter_is_no_filter_witness :
  invoke (http_server ok_response) (ListAgents (PyDict [])) http_client
    = invoke (http_server ok_response) (ListAgents PyNone) http_client.
Proof.
  destruct (empty_filter_is_no_filter (http_server ok_response) (PyDict []) http_client)
    as (Hagents & _); [reflexivity | reflexivity | exact Hagents].
Defined.

(** ** The synchronous bridge, further *)

Section BridgeShape.

Context (env : Env).

(** Every call on a connection: one emission, [k] rounds of the loop until
    its condition fails, then the test of what the callback left. *)
Lemma socket_request_shape event data st :
  sio_active (client st) = true ->
  let sent := py_or data (PyDict []) in
  let pending := reply_to env event sent st in
  let deadline := clock (world st) + 1000 * timeout (client st) in
  exists k,
    let st' := after_polls k (after_emit event sent st) in
    let vars := nonlocals_at pending (clock (world st')) in
    _socket_request env event data st =
      (if negb (response_received vars)
       then Raises (Exception (PyStr ("WebSocket request timeout for event: " +:+ event)))
       else bridge_outcome vars, st') /\
    (forall j, (j < k)%nat ->
       keeps_waiting pending deadline (clock (world st) + 100 * Z.of_nat j) = true) /\
    keeps_waiting pending deadline (clock (world st) + 100 * Z.of_nat k) = false.
Proof.
  intros Hon sent pending deadline.
  destruct (wait_for_response_exits pending (timeout (client st)) (after_emit event sent st))
    as (k & Hwait & Hbefore & Hlast).
  exists k. split; [| split].
  - apply (socket_request_active env event data st Hon k Hwait).
  - exact Hbefore.
  - exact Hlast.
Qed.

(** What the callback leaves after a reply, and what the bridge makes of
    it: the reply itself when it is a dict with a truthy [success], an
    exception or [None] otherwise. *)
Lemma bridge_outcome_callback response v :
  bridge_outcome (callback response) = Returns v ->
  (exists d, response = PyDict d /\ v = PyDict d /\
             truthy (dict_get d "success" PyNone) = true) \/
  v = PyNone.
Proof.
  unfold bridge_outcome, callback.
  destruct response as [| b | z | s | l | d]; cbn [response_error response_data truthy];
    try (intros H; injection H as <-; right; reflexivity).
  destruct (truthy (dict_get d "success" PyNone)) eqn:Hs;
    cbn [response_error response_data truthy].
  - intros H. injection H as <-. left. exists d. auto.
  - destruct (truthy (dict_get d "error" (PyStr "Unknown error"))); [discriminate |].
    intros H. injection H as <-. right. reflexivity.
Qed.

(** Whatever [_socket_request] returns is [None] or a dict with a truthy
    [success]. *)
Lemma socket_request_returns event data st v :
  fst (_socket_request env event data st) = Returns v ->
  (exists d, v = PyDict d /\ truthy (dict_get d "success" PyNone) = true) \/ v = PyNone.
Proof.
  destruct (sio_active (client st)) eqn:Hon.
  - destruct (socket_request_shape event data st Hon) as (k & -> & _ & _).
    cbn [fst].
    set (vars := nonlocals_at _ _).
    destruct (response_received vars) eqn:Hrecv; cbn [negb]; [| discriminate].
    subst vars. unfold nonlocals_at in *.
    destruct (reply_to env event (py_or data (PyDict [])) st) as [[arrival response] |];
      [| discriminate].
    destruct (arrival <? _); [| discriminate].
    intros Hret. destruct (bridge_outcome_callback response v Hret) as [(d & _ & -> & Hs) | ->].
    + left. exists d. auto.
    + right. reflexivity.
  - rewrite socket_request_inactive by exact Hon. discriminate.
Qed.

End BridgeShape.



(** A reply that arrives before the deadline is noticed at the first round
    of the loop after its arrival: [_socket_request] ends after the reply
    and at most 100 milliseconds after it, with what the callback made of
    the reply. *)
Theorem reply_is_noticed_within_one_round env event data st delay response :
  sio_active (client st) = true ->
  sio_reply env (trace (world st)) event (py_or data (PyDict [])) = Some (delay, response) ->
  Z.of_N delay < 1000 * timeout (client st) ->
  let arrival := clock (world st) + Z.of_N delay in
  let st' := snd (_socket_request env event data st) in
  fst (_socket_request env event data st) = bridge_outcome (callback response) /\
  arrival < clock (world st') <= arrival + 100.
Proof.
  intros Hon Hreply Hearly arrival st'.
  destruct (socket_request_receives env event data st delay response Hon Hreply Hearly)
    as (k' & Hrecv).
  split; [rewrite Hrecv; reflexivity |].
  destruct (socket_request_shape env event data st Hon) as (k & Hrun & Hbefore & Hlast).
  unfold st'. rewrite Hrun. cbn [snd]. unfold after_polls, after_emit. cbn [world clock].
  assert (Hpending : reply_to env event (py_or data (PyDict [])) st = Some (arrival, response)).
  { unfold reply_to. rewrite Hreply. reflexivity. }
  rewrite Hpending in Hbefore, Hlast. unfold keeps_waiting, nonlocals_at in Hbefore, Hlast.
  assert (Hrcb : response_received (callback response) = true).
  { unfold callback. destruct response; try reflexivity.
    destruct (truthy (dict_get d "success" PyNone)); reflexivity. }
  split.
  - destruct (arrival <? clock (world st) + 100 * Z.of_nat k) eqn:Hseen;
      [apply Z.ltb_lt in Hseen; exact Hseen |].
    cbn in Hlast. apply Z.ltb_ge in Hlast. unfold arrival in *. lia.
  - destruct k as [| k]; [unfold arrival; lia |].
    specialize (Hbefore k ltac:(lia)).
    destruct (arrival <? clock (world st) + 100 * Z.of_nat k) eqn:Hseen.
    + rewrite Hrcb in Hbefore. discriminate.
    + apply Z.ltb_ge in Hseen. lia.
Qed.

Lemma reply_is_noticed_within_one_round_witness :
  fst (_socket_request (socket_server 250 bare_success) "tool:list" PyNone realtime_client)
    = Returns bare_success /\
  250 < clock (world (snd (_socket_request (socket_server 250 bare_success) "tool:list"
                             PyNone realtime_client))) <= 350.
Proof.
  apply (reply_is_noticed_within_one_round (socket_server 250 bare_success) "tool:list"
           PyNone realtime_client 250%N bare_success); reflexivity.
Defined.

(** On the real-time path, a reply received before the deadline with a
    truthy [success] and with the field of the method makes the method
    return the value of that field. *)
Theorem realtime_call_returns_the_field env c st event payload field delay d v :
  sio_active (client st) = true ->
  socket_route c = Some (event, payload, field) ->
  sio_reply env (trace (world st)) event (py_or payload (PyDict [])) = Some (delay, PyDict d) ->
  Z.of_N delay < 1000 * timeout (client st) ->
  truthy (dict_get d "success" PyNone) = true ->
  dict_lookup d field = Some v ->
  fst (invoke env c st) = Returns v.
Proof.
  intros Hon Hroute Hreply Hearly Hsuccess Hfield.
  rewrite invoke_facade_pattern. unfold facade_pattern. rewrite Hroute.
  rewrite bind_get_self, Hon. unfold mbind, M_bind.
  destruct (socket_request_receives env event payload st delay (PyDict d) Hon Hreply Hearly)
    as (k & ->).
  cbn [callback]. rewrite Hsuccess. unfold bridge_outcome.
  cbn [response_error response_data truthy].
  unfold subscript. rewrite Hfield. reflexivity.
Qed.

Lemma realtime_call_returns_the_field_witness :
  fst (invoke (socket_server 50 Cases.full_reply) (GetAgent "a1") realtime_client)
    = Returns (PyDict [("id", PyStr "a1")]).
Proof.
  apply (realtime_call_returns_the_field (socket_server 50 Cases.full_reply) (GetAgent "a1")
           realtime_client "agent:get" (PyDict [("agentId", PyStr "a1")]) "agent" 50%N
           [("success", PyBool true); ("agent", PyDict [("id", PyStr "a1")]);
            ("tasks", PyList [])]); reflexivity.
Defined.

(** On the real-time path [delete_agent] and [delete_task] never return a
    falsy value: what they return is the [success] of the reply, and a reply
    whose [success] is falsy never gets that far. *)
Theorem realtime_deletion_never_returns_false env c st v :
  is_delete c = true ->
  sio_active (client st) = true ->
  fst (invoke env c st) = Returns v ->
  truthy v = true.
Proof.
  intros Hdel Hon.
  rewrite invoke_facade_pattern. unfold facade_pattern.
  assert (Hroute : exists event payload, socket_route c = Some (event, payload, "success")).
  { destruct c; try discriminate; cbn [socket_route]; eauto. }
  destruct Hroute as (event & payload & ->).
  rewrite bind_get_self, Hon. unfold mbind, M_bind.
  pose proof (socket_request_returns env event payload st) as Hret.
  destruct (_socket_request env event payload st) as [[response | e |] st'];
    cbn [fst] in *; [| discriminate | discriminate].
  destruct (Hret response eq_refl) as [(d & -> & Hs) | ->]; [| discriminate].
  unfold subscript. unfold dict_get in Hs.
  destruct (dict_lookup d "success") as [x |]; [| discriminate].
  cbn [fst mret M_ret]. intros H. injection H as <-. exact Hs.
Qed.

Lemma realtime_deletion_never_returns_false_witness :
  fst (invoke (socket_server 50 bare_success) (DeleteTask "t1") realtime_client)
    = Returns (PyBool true) /\
  truthy (PyBool true) = true.
Proof.
  assert (Hret : fst (invoke (socket_server 50 bare_success) (DeleteTask "t1") realtime_client)
                 = Returns (PyBool true)) by (vm_compute; reflexivity).
  split; [exact Hret |].
  apply (realtime_deletion_never_returns_false (socket_server 50 bare_success)
           (DeleteTask "t1") realtime_client (PyBool true)); [reflexivity | reflexivity |].
  exact Hret.
Defined.

(** A reply that is not a dict, received before the deadline: the callback
    stops after recording the receipt, [_socket_request] returns [None], and
    the domain method fails on subscripting it. *)
Theorem reply_that_is_no_dict env c st event payload field delay response :
  sio_active (client st) = true ->
  socket_route c = Some (event, payload, field) ->
  sio_reply env (trace (world st)) event (py_or payload (PyDict [])) = Some (delay, response) ->
  Z.of_N delay < 1000 * timeout (client st) ->
  (forall d, response <> PyDict d) ->
  fst (_socket_request env event payload st) = Returns PyNone /\
  fst (invoke env c st) = Raises (TypeError "'NoneType' object is not subscriptable").
Proof.
  intros Hon Hroute Hreply Hearly Hnodict.
  assert (Hcb : bridge_outcome (callback response) = Returns PyNone).
  { destruct response; try reflexivity. exfalso. apply (Hnodict d). reflexivity. }
  destruct (socket_request_receives env event payload st delay response Hon Hreply Hearly)
    as (k & Hrun).
  split; [rewrite Hrun, Hcb; reflexivity |].
  rewrite invoke_facade_pattern. unfold facade_pattern. rewrite Hroute.
  rewrite bind_get_self, Hon. unfold mbind, M_bind. rewrite Hrun, Hcb. reflexivity.
Qed.

Lemma reply_that_is_no_dict_witness :
  fst (_socket_request (socket_server 50 (PyList [])) "tool:list" (PyDict []) realtime_client)
    = Returns PyNone /\
  fst (invoke (socket_server 50 (PyList [])) ListTools realtime_client)
    = Raises (TypeError "'NoneType' object is not subscriptable").
Proof.
  apply (reply_that_is_no_dict (socket_server 50 (PyList [])) ListTools realtime_client
           "tool:list" (PyDict []) "tools" 50%N (PyList []));
    try reflexivity.
  intros d. discriminate.
Defined.

(** No domain method changes the client object: its configuration, its
    connection handle and its handler registry are after the call what they
    were before, on either path and whatever the outcome. *)
Theorem domain_methods_keep_the_client env c st :
  client (snd (invoke env c st)) = client st.
Proof.
  destruct (sio_active (client st)) eqn:Hon.
  - rewrite invoke_facade_pattern. unfold facade_pattern.
    destruct (socket_route c) as [[[event payload] field] |] eqn:Hroute.
    + rewrite bind_get_self, Hon. unfold mbind, M_bind.
      destruct (socket_request_shape env event payload st Hon) as (k & -> & _ & _).
      set (outcome := if negb _ then _ else _).
      destruct outcome as [response | e |]; [| reflexivity | reflexivity].
      unfold subscript.
      destruct response as [| b | z | s | l | d]; try reflexivity.
      destruct (dict_lookup d field); reflexivity.
    + rewrite http_path_run. reflexivity.
  - rewrite invoke_http by exact Hon. rewrite http_path_run. reflexivity.
Qed.

(** ** Event subscription, further *)

Lemma handlers_for_off_other c event event' h :
  event <> event' -> handlers_for (off c event h) event' = handlers_for c event'.
Proof.
  intros Hne. unfold handlers_for, off.
  destruct (event_handlers c !! event) as [l |]; [| reflexivity].
  destruct (list_contains h l); [| reflexivity].
  unfold set_event_handlers. cbn [event_handlers].
  rewrite lookup_insert_ne by exact Hne. reflexivity.
Qed.

Lemma list_contains_app h l1 l2 :
  list_contains h (l1 ++ l2) = list_contains h l1 || list_contains h l2.
Proof. unfold list_contains. apply existsb_app. Qed.

Lemma list_remove_app_absent h l1 l2 :
  list_contains h l1 = false -> list_remove h (l1 ++ l2) = l1 ++ list_remove h l2.
Proof.
  induction l1 as [| y l1 IH]; [reflexivity |].
  cbn [list_contains existsb]. intros Hno. apply orb_false_elim in Hno as [Hy Hl].
  cbn [app list_remove]. rewrite Hy. f_equal. apply IH. exact Hl.
Qed.

Lemma list_contains_true h l :
  list_contains h l = true -> registrations h l <> 0%nat.
Proof.
  induction l as [| y l IH]; [discriminate |].
  cbn [list_contains existsb]. rewrite registrations_cons.
  destruct (py_eq y h); [intros _; cbn; lia |].
  cbn [orb]. intros Hin. specialize (IH Hin). cbn. exact IH.
Qed.

Lemma list_contains_false h l :
  list_contains h l = false -> registrations h l = 0%nat.
Proof.
  induction l as [| y l IH]; [reflexivity |].
  cbn [list_contains existsb]. intros Hno. apply orb_false_elim in Hno as [Hy Hl].
  rewrite registrations_cons, Hy. cbn. apply IH. exact Hl.
Qed.

(** [off] for a handler that is not registered for the event, or for an
    event that was never registered, leaves the whole client as it is; it
    raises nothing. *)
Theorem off_without_registration_changes_nothing c event h :
  list_contains h (handlers_for c event) = false ->
  off c event h = c.
Proof.
  unfold handlers_for, off. intros Hno.
  destruct (event_handlers c !! event) as [l |]; [| reflexivity].
  cbn [default from_option id] in Hno. rewrite Hno. reflexivity.
Qed.

Lemma off_without_registration_changes_nothing_witness :
  off (client two_handlers) "task_deleted" first = client two_handlers /\
  off (client two_handlers) "task_updated" Cases.third = client two_handlers.
Proof.
  split.
  - apply (off_without_registration_changes_nothing (client two_handlers) "task_deleted" first).
    reflexivity.
  - apply (off_without_registration_changes_nothing (client two_handlers) "task_updated"
             Cases.third).
    reflexivity.
Defined.

(** [off] undoes [on] for a handler that was not registered before: the
    handler list of the event is again what it was. *)
Theorem off_undoes_on_for_a_new_handler c event h :
  list_contains h (handlers_for c event) = false ->
  handlers_for (off (on c event h) event h) event = handlers_for c event.
Proof.
  intros Hnew. rewrite handlers_for_off, handlers_for_on.
  rewrite list_remove_app_absent by exact Hnew.
  cbn [list_remove]. rewrite py_eq_refl. apply app_nil_r.
Qed.

Lemma off_undoes_on_for_a_new_handler_witness :
  handlers_for (off (on (client two_handlers) "task_updated" Cases.third)
                    "task_updated" Cases.third) "task_updated"
    = [first; second].
Proof.
  rewrite (off_undoes_on_for_a_new_handler (client two_handlers) "task_updated" Cases.third);
    reflexivity.
Defined.

(** [off] after [on] for a handler that was registered already removes the
    older registration, not the new one: the handler moves from its place to
    the end of the list, and is dispatched last. *)
Theorem off_after_on_keeps_the_newer_registration c event h before x after :
  handlers_for c event = before ++ x :: after ->
  py_eq x h = true ->
  list_contains h before = false ->
  handlers_for (off (on c event h) event h) event = before ++ after ++ [h].
Proof.
  intros Hl Hx Hbefore. rewrite handlers_for_off, handlers_for_on, Hl.
  rewrite <- app_assoc. rewrite list_remove_app_absent by exact Hbefore.
  cbn [app list_remove]. rewrite Hx. reflexivity.
Qed.

Lemma off_after_on_keeps_the_newer_registration_witness :
  handlers_for (off (on (client two_handlers) "task_updated" first) "task_updated" first)
               "task_updated"
    = [second; first].
Proof.
  apply (off_after_on_keeps_the_newer_registration (client two_handlers) "task_updated" first
           [] first [second]); reflexivity.
Defined.

(** [on] and [off] touch the handler list of their event only: the lists
    of the other events, the connection handle and the configuration stay. *)
Theorem subscription_touches_one_event c event event' h :
  event <> event' ->
  handlers_for (on c event h) event' = handlers_for c event' /\
  handlers_for (off c event h) event' = handlers_for c event' /\
  sio (on c event h) = sio c /\ sio (off c event h) = sio c /\
  headers (on c event h) = headers c /\ headers (off c event h) = headers c /\
  base_url (on c event h) = base_url c /\ base_url (off c event h) = base_url c /\
  timeout (on c event h) = timeout c /\ timeout (off c event h) = timeout c.
Proof.
  intros Hne.
  split; [apply handlers_for_on_other; exact Hne |].
  split; [apply handlers_for_off_other; exact Hne |].
  split; [apply sio_on |]. split; [apply sio_off |].
  assert (Hoff : forall A (f : Client -> A),
            (forall m c', f (set_event_handlers m c') = f c') -> f (off c event h) = f c).
  { intros A f Hf. unfold off. destruct (event_handlers c !! event) as [l |]; [| reflexivity].
    destruct (list_contains h l); [apply Hf | reflexivity]. }
  assert (Hon' : forall A (f : Client -> A),
            (forall m c', f (set_event_handlers m c') = f c') -> f (on c event h) = f c).
  { intros A f Hf. unfold on. destruct (event_handlers c !! event) as [l |] eqn:Hl.
    - rewrite Hl. apply Hf.
    - set (c1 := set_event_handlers _ c).
      destruct (event_handlers c1 !! event); [rewrite Hf |]; apply Hf. }
  repeat split; first [apply Hon' | apply Hoff]; reflexivity.
Qed.

Lemma subscription_touches_one_event_witness :
  handlers_for (off (client two_handlers) "task_deleted" first) "task_updated"
    = [first; second].
Proof.
  destruct (subscription_touches_one_event (client two_handlers) "task_deleted" "task_updated"
              first) as (_ & Hoff & _); [discriminate |].
  rewrite Hoff. reflexivity.
Defined.

(** The registry counts registrations: [on] adds one registration of its
    handler, [off] takes one away when there is one, and shortens the list by
    exactly one item then and by none otherwise. *)
Theorem registrations_are_counted c event h :
  let l := handlers_for c event in
  registrations h (handlers_for (on c event h) event) = S (registrations h l) /\
  registrations h (handlers_for (off c event h) event) = Nat.pred (registrations h l) /\
  length (handlers_for (on c event h) event) = S (length l) /\
  length (handlers_for (off c event h) event)
    = (length l - (if list_contains h l then 1 else 0))%nat /\
  (list_contains h l = true <-> registrations h l <> 0%nat).
Proof.
  intros l. rewrite handlers_for_on, handlers_for_off. fold l.
  split; [rewrite registrations_app, registrations_self; lia |].
  split; [apply registrations_remove |].
  split; [rewrite length_app; cbn; lia |]. split.
  - destruct (list_contains h l) eqn:Hin.
    + destruct (list_remove_first h l Hin) as (before & x & after & Hl & _ & _ & ->).
      rewrite Hl, !length_app. cbn [length]. lia.
    + rewrite list_remove_absent by exact Hin. lia.
  - split; [apply list_contains_true |].
    intros Hcount. destruct (list_contains h l) eqn:Hin; [reflexivity |].
    apply list_contains_false in Hin. congruence.
Qed.

(** ** Dispatch, further *)

(** A dispatch for an event without handlers (never registered, or with all
    its handlers removed) does nothing at all, however little fuel it has. *)
Theorem dispatch_without_handlers_does_nothing env fuel event args st :
  handlers_for (client st) event = [] ->
  _trigger_event env fuel event args st = (Returns tt, st).
Proof.
  unfold handlers_for, _trigger_event. intros Hnone. rewrite bind_get_self.
  destruct (event_handlers (client st) !! event) as [l |] eqn:Hl; [| reflexivity].
  cbn in Hnone. subst l.
  destruct fuel; cbn [for_handler_in]; rewrite Hl; reflexivity.
Qed.

Lemma dispatch_without_handlers_does_nothing_witness :
  let emptied := mkState (off (off (client two_handlers) "task_updated" first)
                              "task_updated" second)
                         (world two_handlers) in
  event_handlers (client emptied) !! "task_updated" = Some [] /\
  _trigger_event raising_env 0 "task_updated" [PyInt 1] emptied = (Returns tt, emptied).
Proof.
  split; [vm_compute; reflexivity |].
  apply (dispatch_without_handlers_does_nothing raising_env 0 "task_updated" [PyInt 1]).
  vm_compute. reflexivity.
Defined.

(** A push of [task_updated], [task_deleted] or [agent_updated] invokes
    every handler registered for that event, once each and in the order of
    registration, with the payload of the push as only argument (when no
    handler touches the list meanwhile). *)
Theorem push_invokes_the_handlers_with_the_payload env fuel event data st :
  is_push_event event = true ->
  registry_stable env event ->
  (length (handlers_for (client st) event) <= fuel)%nat ->
  fst (sio_receive env fuel event data st) = Returns tt /\
  invocations (trace (world (snd (sio_receive env fuel event data st))))
    = invocations (trace (world st)) ++
      map (fun h => (h, [data])) (handlers_for (client st) event).
Proof.
  intros Hpush Hstable Hfuel.
  assert (Hsame : sio_receive env fuel event data st = _trigger_event env fuel event [data] st).
  { unfold is_push_event in Hpush. unfold sio_receive.
    destruct (String.eqb event "task_updated") eqn:H1;
      [apply String.eqb_eq in H1; subst; reflexivity |].
    destruct (String.eqb event "task_deleted") eqn:H2;
      [apply String.eqb_eq in H2; subst; reflexivity |].
    destruct (String.eqb event "agent_updated") eqn:H3;
      [apply String.eqb_eq in H3; subst; reflexivity | discriminate]. }
  rewrite Hsame. apply trigger_event_invocations; assumption.
Qed.

Lemma push_invokes_the_handlers_with_the_payload_witness :
  invocations
    (trace (world (snd (sio_receive raising_env 2 "task_updated" (PyStr "t1") two_handlers))))
    = [(first, [PyStr "t1"]); (second, [PyStr "t1"])].
Proof.
  destruct (push_invokes_the_handlers_with_the_payload raising_env 2%nat "task_updated"
              (PyStr "t1") two_handlers) as [_ Hinv].
  - reflexivity.
  - apply idle_handlers_stable. reflexivity.
  - vm_compute. lia.
  - rewrite Hinv. reflexivity.
Defined.

(** ** The bridge at its bounds *)

(** With a timeout of zero, or a negative one, no reply can be in time: on
    a connection [_socket_request] emits the event and raises the timeout
    error at once, without a single round of the loop, whatever the server
    replies and however fast. *)
Theorem zero_timeout_always_times_out env event data st :
  sio_active (client st) = true ->
  timeout (client st) <= 0 ->
  _socket_request env event data st =
    (Raises (Exception (PyStr ("WebSocket request timeout for event: " +:+ event))),
     after_emit event (py_or data (PyDict [])) st).
Proof.
  intros Hon HT.
  destruct (socket_request_shape env event data st Hon) as (k & Hrun & Hbefore & _).
  assert (Hk : k = 0%nat).
  { destruct k as [| k]; [reflexivity |].
    specialize (Hbefore 0%nat ltac:(lia)). unfold keeps_waiting in Hbefore.
    apply andb_prop in Hbefore as [_ Hbefore]. apply Z.ltb_lt in Hbefore. lia. }
  subst k. rewrite Hrun. rewrite after_polls_0.
  unfold after_emit at 1. cbn [world clock].
  assert (Hnone : nonlocals_at (reply_to env event (py_or data (PyDict [])) st)
                               (clock (world st)) = no_response).
  { unfold nonlocals_at, reply_to.
    destruct (sio_reply env (trace (world st)) event (py_or data (PyDict [])))
      as [[delay response] |]; [| reflexivity].
    destruct (clock (world st) + Z.of_N delay <? clock (world st)) eqn:Hlt;
      [apply Z.ltb_lt in Hlt; lia | reflexivity]. }
  rewrite Hnone. reflexivity.
Qed.

Lemma zero_timeout_always_times_out_witness :
  let impatient :=
    snd (__init__ (socket_server 0 bare_success) "http://host" None 0 true None start) in
  fst (_socket_request (socket_server 0 bare_success) "tool:list" PyNone impatient)
    = Raises (Exception (PyStr "WebSocket request timeout for event: tool:list")).
Proof.
  intros impatient.
  rewrite (zero_timeout_always_times_out (socket_server 0 bare_success) "tool:list" PyNone
             impatient); [reflexivity | reflexivity | vm_compute; discriminate].
Defined.

(** On a connection, a domain method with a real-time route goes over the
    connection only: what it adds to the trace is one emission, of the event
    and payload of its route (the empty dict for a falsy payload), followed
    by the rounds of the loop; it makes no HTTP call. *)
Theorem realtime_call_makes_one_emission env c st event payload field :
  sio_active (client st) = true ->
  socket_route c = Some (event, payload, field) ->
  exists k,
    trace (world (snd (invoke env c st)))
      = trace (world st) ++ SioEmit event (py_or payload (PyDict [])) :: repeat (Sleep 100) k.
Proof.
  intros Hon Hroute.
  rewrite invoke_facade_pattern. unfold facade_pattern. rewrite Hroute.
  rewrite bind_get_self, Hon. unfold mbind, M_bind.
  destruct (socket_request_shape env event payload st Hon) as (k & -> & _ & _).
  exists k.
  set (outcome := if negb _ then _ else _).
  assert (Htrace : trace (world (after_polls k (after_emit event (py_or payload (PyDict [])) st)))
                   = trace (world st) ++
                     SioEmit event (py_or payload (PyDict [])) :: repeat (Sleep 100) k).
  { unfold after_polls, after_emit. cbn [world trace]. rewrite <- app_assoc. reflexivity. }
  destruct outcome as [response | e |]; [| exact Htrace | exact Htrace].
  unfold subscript.
  destruct response as [| b | z | s | l | d]; try exact Htrace.
  destruct (dict_lookup d field); exact Htrace.
Qed.

Lemma realtime_call_makes_one_emission_witness :
  exists k,
    trace (world (snd (invoke (socket_server 50 Cases.full_reply) (ListTasks PyNone)
                              realtime_client)))
      = trace (world realtime_client) ++
        SioEmit "task:list" (py_or (PyDict [("filter", PyNone)]) (PyDict [])) ::
        repeat (Sleep 100) k.
Proof.
  apply (realtime_call_makes_one_emission (socket_server 50 Cases.full_reply)
           (ListTasks PyNone) realtime_client "task:list" (PyDict [("filter", PyNone)])
           "tasks"); reflexivity.
Defined.
